(** * mp_remote.py: incremental upload and recursive listing over mpremote

    A shallow embedding of [mp_remote.py].  The script is a sequencing layer
    over three kinds of effects: the local file system (pathlib), the
    external [mpremote] tool (subprocess) and standard output (print).  The
    embedding keeps the three apart:

    - the local file system is a tree of nodes, read and updated by path;
    - the device behind [mpremote] is a deterministic responder: the answer
      to a command is a function of the commands run before it;
    - every effect is recorded, in program order, in a log of events, so
      that statements about what was requested, printed, read or written,
      and in which order, are statements about that log.

    Python exceptions are explicit: a computation returns normally, is
    unwound by [SystemExit] (from [sys.exit]) or by another exception. *)

From Stdlib Require Import List String Ascii ZArith Bool Arith Lia Permutation Sorted.
Import ListNotations.

Local Open Scope string_scope.
Local Open Scope list_scope.
Local Open Scope nat_scope.

(** ** Python [str] methods used by the script

    Strings are sequences of 8-bit characters.  The definitions follow the
    Python methods on the ASCII range; the non-ASCII white space and line
    boundaries of Unicode (U+0085, U+00A0, U+2028, ...) are outside the
    model. *)
Module PyStr.

(** The line feed character, written "\n" in the script. *)
Definition LF : ascii := ascii_of_nat 10.
Definition CR : ascii := ascii_of_nat 13.
Definition nl : string := String LF EmptyString.

(** [str.isspace] on one character: TAB, LF, VT, FF, CR, FS, GS, RS, US
    and the space. *)
Definition is_space (c : ascii) : bool :=
  let n := nat_of_ascii c in
  ((9 <=? n) && (n <=? 13)) || ((28 <=? n) && (n <=? 32)).

(** The line boundaries of [str.splitlines]: LF, VT, FF, CR, FS, GS, RS
    (US is white space but no line boundary). *)
Definition is_linebreak (c : ascii) : bool :=
  let n := nat_of_ascii c in
  ((10 <=? n) && (n <=? 13)) || ((28 <=? n) && (n <=? 30)).

(** [s.lstrip(chars)], [s.rstrip(chars)] for the set of characters [p]. *)
Fixpoint lstrip_by (p : ascii -> bool) (s : string) : string :=
  match s with
  | EmptyString => EmptyString
  | String c s' => if p c then lstrip_by p s' else s
  end.

Fixpoint rstrip_by (p : ascii -> bool) (s : string) : string :=
  match s with
  | EmptyString => EmptyString
  | String c s' =>
      match rstrip_by p s' with
      | EmptyString => if p c then EmptyString else String c EmptyString
      | r => String c r
      end
  end.

(** [s.strip()] *)
Definition strip (s : string) : string := rstrip_by is_space (lstrip_by is_space s).

(** [s.rstrip('/')] *)
Definition rstrip_slash (s : string) : string := rstrip_by (Ascii.eqb "/") s.

(** [s.splitlines()]: no line for the empty string, no empty last line
    after a final boundary, CR LF is one boundary.  [after_cr] tells that
    the previous character was a CR that ended a line. *)
Fixpoint splitlines_from (after_cr : bool) (s : string) : list string :=
  match s with
  | EmptyString => []
  | String c s' =>
      if after_cr && Ascii.eqb c LF then splitlines_from false s'
      else if is_linebreak c then EmptyString :: splitlines_from (Ascii.eqb c CR) s'
      else match splitlines_from false s' with
           | [] => [String c EmptyString]
           | l :: ls => String c l :: ls
           end
  end.

Definition splitlines (s : string) : list string := splitlines_from false s.

(** [s.split()]: the maximal runs of characters that are not white space.
    The auxiliary function returns the run that starts at the first
    character (empty when that is white space) and the runs after it. *)
Definition cons_token (t : string) (ts : list string) : list string :=
  match t with EmptyString => ts | _ => t :: ts end.

Fixpoint split_runs (s : string) : string * list string :=
  match s with
  | EmptyString => (EmptyString, [])
  | String c s' =>
      let (t, ts) := split_runs s' in
      if is_space c then (EmptyString, cons_token t ts) else (String c t, ts)
  end.

Definition split (s : string) : list string :=
  let (t, ts) := split_runs s in cons_token t ts.

(** [s.endswith('/')] *)
Fixpoint endswith_slash (s : string) : bool :=
  match s with
  | EmptyString => false
  | String c EmptyString => Ascii.eqb c "/"
  | String _ s' => endswith_slash s'
  end.

(** [s.rfind(ch)] for one character; [None] is Python's -1. *)
Fixpoint rfind (ch : ascii) (s : string) : option nat :=
  match s with
  | EmptyString => None
  | String c s' =>
      match rfind ch s' with
      | Some i => Some (S i)
      | None => if Ascii.eqb c ch then Some 0 else None
      end
  end.

(** [' ' * n] *)
Fixpoint spaces (n : nat) : string :=
  match n with
  | O => EmptyString
  | S n' => String " " (spaces n')
  end.

(** [x in l] for a list of strings. *)
Definition mem (x : string) (l : list string) : bool := existsb (String.eqb x) l.

End PyStr.

(** ** pathlib

    A path is the list of its components below the file-system root (for an
    absolute, resolved path) or below the scan root (for a relative one). *)
Module PyPath.

(** [PurePath.parts] *)
Definition parts := list string.

(** [PurePath.name]: the last component. *)
Definition name (p : parts) : string := last p EmptyString.

(** [PurePath.suffix] (CPython's pathlib):
    [i = name.rfind('.'); name[i:] if 0 < i < len(name) - 1 else ''].
    A leading dot starts no suffix, and only the last dot counts. *)
Definition suffix_of_name (nm : string) : string :=
  match PyStr.rfind "." nm with
  | Some i =>
      if (0 <? i) && (i <? String.length nm - 1)
      then substring i (String.length nm - i) nm
      else EmptyString
  | None => EmptyString
  end.

Definition suffix (p : parts) : string := suffix_of_name (name p).

(** [PurePath.parent] of a relative path: all components but the last; the
    parent of the empty relative path is itself. *)
Definition parent (p : parts) : parts := removelast p.

(** [str(p)] and [p.as_posix()] of a relative path.  The empty relative
    path is written ".": pathlib's [__str__] is
    [self._format_parsed_parts(...) or '.']. *)
Definition as_posix (p : parts) : string :=
  match p with
  | [] => "."
  | _ => String.concat "/" p
  end.

(** [str(p)] of an absolute path. *)
Definition abs_str (p : parts) : string := "/" ++ String.concat "/" p.

End PyPath.

(** ** The local file system

    Time stamps are the floats of [st_mtime] and [time.time()]; the script
    only stores and compares them, so they are modelled by their order, as
    integers (ticks of the clock). *)
Module LocalFS.
Import PyPath.

Definition time := Z.

(** A node of the local tree.  A regular file carries its modification
    time and what [float(read_text())] makes of its content ([None] when
    the text is no float literal, where Python raises [ValueError]).
    [Special] stands for what exists but is neither a regular file nor a
    directory (a socket, a device). *)
#[local] Set Warnings "-register-all".
Inductive node : Type :=
| File (mtime : time) (as_float : option time)
| Dir (entries : list (string * node))
| Special.

Definition get_entry (nm : string) (es : list (string * node)) : option node :=
  option_map snd (find (fun e => String.eqb (fst e) nm) es).

(** The node a path leads to, from the node it starts at. *)
Fixpoint lookup (p : parts) (n : node) : option node :=
  match p with
  | [] => Some n
  | c :: p' =>
      match n with
      | Dir es =>
          match get_entry c es with
          | Some x => lookup p' x
          | None => None
          end
      | _ => None
      end
  end.

(** Replace the entry named [nm], or add it when there is none. *)
Fixpoint set_entry (nm : string) (v : node) (es : list (string * node)) : list (string * node) :=
  match es with
  | [] => [(nm, v)]
  | (k, x) :: es' =>
      if String.eqb k nm then (k, v) :: es' else (k, x) :: set_entry nm v es'
  end.

(** The tree with the file [nm] of the directory at [p] set to [v]; a path
    that leads to no directory leaves the tree as it is. *)
Fixpoint write_entry (p : parts) (nm : string) (v : node) (n : node) : node :=
  match n with
  | Dir es =>
      match p with
      | [] => Dir (set_entry nm v es)
      | c :: p' =>
          match get_entry c es with
          | Some x => Dir (set_entry c (write_entry p' nm v x) es)
          | None => n
          end
      end
  | _ => n
  end.

(** [Path.is_dir()], [Path.is_file()] *)
Definition is_dir (o : option node) : bool :=
  match o with Some (Dir _) => true | _ => false end.

Definition is_file (n : node) : bool :=
  match n with File _ _ => true | _ => false end.

(** [root.rglob('*')]: every path below the directory, with the node it
    names, relative to the scan root ([pre] is the relative path of the
    directory being listed).  The order is CPython's: the entries of a
    directory, then the same for each of its subdirectories in turn; the
    order of the entries of one directory is the one the operating system
    returns them in, here the order of the list. *)
Fixpoint rglob (pre : parts) (n : node) : list (parts * node) :=
  match n with
  | Dir es =>
      map (fun e => (pre ++ [fst e], snd e)) es ++
      flat_map (fun e => rglob (pre ++ [fst e]) (snd e)) es
  | _ => []
  end.

(** [under n rel x]: below the directory [n], the relative path [rel]
    (at least one component) names the node [x]. *)
Inductive under : node -> parts -> node -> Prop :=
| under_child es nm c : In (nm, c) es -> under (Dir es) [nm] c
| under_deeper es nm c rel x :
    In (nm, c) es -> under c rel x -> under (Dir es) (nm :: rel) x.

End LocalFS.

(** ** Effects: the device, the log and the world *)
Module Effects.
Import PyPath LocalFS.

(** What [subprocess.run(cmd, check=True, ...)] makes of one run of the
    tool: its standard output, or [CalledProcessError] with the exit
    status.  The tool is taken to be installed: the [FileNotFoundError] of
    a missing executable is outside the model. *)
Inductive dev_result : Type :=
| DevOk (stdout : string)
| DevFail (returncode : Z).

(** The device and the tool in front of it: the result of a command line,
    given the command lines run before it (oldest first). *)
Definition device := list (list string) -> list string -> dev_result.

(** The observable steps of a run, in program order.  [PrintToolError]
    is the line [print(f"Error: mpremote command failed: {e}")], whose text
    is fixed by the command and its exit status.  The three marker events
    are the calls [exists()], [read_text()] and [write_text()] on the
    marker file. *)
Inductive event : Type :=
| Print (text : string)
| PrintToolError (cmd : list string) (returncode : Z)
| Run (cmd : list string) (res : dev_result)
| MarkerExists (p : parts)
| MarkerRead (p : parts)
| MarkerWrite (p : parts) (t : time).

(** The world a command of the script runs in: the local tree, the value
    [time.time()] returns, and the log so far. *)
Record world : Type := mkWorld {
  fs : node;
  clock : time;
  log : list event
}.

(** How a Python call ends: it returns, or it is unwound by [SystemExit]
    (the process ends with that status unless a caller catches it), or by
    another exception (the process ends with a traceback). *)
Inductive result (A : Type) : Type :=
| Ret (a : A)
| SystemExit (code : Z)
| Raised (exn : string).

Arguments Ret {A} a.
Arguments SystemExit {A} code.
Arguments Raised {A} exn.

(** The exit status of the process when a call made from [main] ends this
    way and nothing catches it: 0 after a return, the code of
    [SystemExit], 1 after a traceback. *)
Definition exit_status {A} (r : result A) : Z :=
  match r with
  | Ret _ => 0
  | SystemExit code => code
  | Raised _ => 1
  end.

Definition M (A : Type) : Type := world -> result A * world.

Definition ret {A} (a : A) : M A := fun w => (Ret a, w).

Definition bind {A B} (m : M A) (k : A -> M B) : M B :=
  fun w =>
    match m w with
    | (Ret a, w') => k a w'
    | (SystemExit c, w') => (SystemExit c, w')
    | (Raised e, w') => (Raised e, w')
    end.

Definition emit (e : event) : M unit :=
  fun w => (Ret tt, mkWorld (fs w) (clock w) (log w ++ [e])).

Definition print (text : string) : M unit := emit (Print text).

Definition sys_exit {A} (code : Z) : M A := fun w => (SystemExit code, w).

Definition raise {A} (exn : string) : M A := fun w => (Raised exn, w).

Definition get_fs : M node := fun w => (Ret (fs w), w).

Definition put_fs (n : node) : M unit :=
  fun w => (Ret tt, mkWorld n (clock w) (log w)).

(** [time.time()] *)
Definition time_time : M time := fun w => (Ret (clock w), w).

(** [for x in l: body(x)] *)
Fixpoint for_each {A} (l : list A) (body : A -> M unit) : M unit :=
  match l with
  | [] => ret tt
  | x :: xs => bind (body x) (fun _ => for_each xs body)
  end.

(** The command lines run so far, and what was printed so far. *)
Definition commands (l : list event) : list (list string) :=
  flat_map (fun e => match e with Run cmd _ => [cmd] | _ => [] end) l.

Definition is_output (e : event) : bool :=
  match e with Print _ | PrintToolError _ _ => true | _ => false end.

Definition printed (l : list event) : list event := filter is_output l.

Definition is_marker_event (e : event) : bool :=
  match e with MarkerExists _ | MarkerRead _ | MarkerWrite _ _ => true | _ => false end.

End Effects.

Declare Scope py_scope.
Delimit Scope py_scope with py.
Notation "x <- c1 ;; c2" := (Effects.bind c1 (fun x => c2))
  (at level 61, c1 at next level, right associativity) : py_scope.
Notation "c1 ;; c2" := (Effects.bind c1 (fun _ => c2))
  (at level 61, right associativity) : py_scope.

(** ** The script *)
Module MpRemote.
Import PyStr PyPath LocalFS Effects.
Local Open Scope py_scope.

Definition TIMESTAMP_FILE_NAME : string := "last_upload_time.txt".

Definition ESP_ROOT : string := ":/".

Definition IGNORED_SUFFIXES : list string :=
  [".txt"; ".md"; ".pyc"; ".log"; ".bak"; ".bat"; ".sh";
   ".ini"; ".cfg"; ".config"; ".DS_Store";
   ".git"; ".gitignore"; ".gitattributes";
   ".pdf"; ".docx"; ".xlsx"; ".pptx";
   ".zip"; ".tar"; ".tar.gz"; ".rar"].

(** [sorted(s)] for a collection of strings, by insertion; Python compares
    strings character by character, as [String.leb] does. *)
Fixpoint insert_sorted (x : string) (l : list string) : list string :=
  match l with
  | [] => [x]
  | y :: l' => if String.leb x y then x :: l else y :: insert_sorted x l'
  end.

Definition sorted (l : list string) : list string := fold_right insert_sorted [] l.

(** [s.add(x)] for a [set] of strings, kept as a list without repetition. *)
Definition set_add (x : string) (s : list string) : list string :=
  if mem x s then s else s ++ [x].

(** The file filter of the scan loop of [upload_path]:
    [is_file()], then the suffix test, then [force or st_mtime > last]. *)
Definition wanted (force : bool) (last_upload_time : time) (file : parts * node) : bool :=
  match snd file with
  | File mtime _ =>
      if mem (suffix (fst file)) IGNORED_SUFFIXES then false
      else force || (last_upload_time <? mtime)%Z
  | _ => false
  end.

(** Step 1 of [upload_path]: [files_to_upload] after the loop over
    [path.rglob('*')].  A file is kept as its path relative to the scan
    root and its node. *)
Definition scan (force : bool) (last_upload_time : time) (root : node) : list (parts * node) :=
  filter (wanted force last_upload_time) (rglob [] root).

(** [file.relative_to(path).parent.as_posix()] *)
Definition relative_folder (file : parts * node) : string := as_posix (parent (fst file)).

(** Step 2 of [upload_path], first loop: the set [folders_to_create]. *)
Definition folders_to_create (files_to_upload : list (parts * node)) : list string :=
  fold_left
    (fun acc file =>
       if String.eqb (relative_folder file) EmptyString then acc
       else set_add (relative_folder file) acc)
    files_to_upload [].

Definition esp_path (rel : string) : string := (rstrip_slash ESP_ROOT ++ "/" ++ rel)%string.

Definition mkdir_args (folder : string) : list string := ["fs"; "mkdir"; esp_path folder].

Definition cp_args (path : parts) (file : parts * node) : list string :=
  ["fs"; "cp"; abs_str (path ++ fst file); esp_path (as_posix (fst file))].

(** The entry loop of [list_all_files]: the names of the files and of the
    subdirectories among the listing lines, each in the order of the
    lines. *)
Definition classify (entries : list string) : list string * list string :=
  fold_left
    (fun acc entry =>
       let parts := split (strip entry) in
       match parts with
       | [] => acc
       | _ =>
           let name := last parts EmptyString in
           if endswith_slash name
           then (fst acc, snd acc ++ [rstrip_slash name])
           else (fst acc ++ [name], snd acc)
       end)
    entries ([], []).

(** A loop whose body may not come back within its fuel. *)
Fixpoint for_each_fuel {A} (l : list A) (body : A -> world -> option (result unit * world))
  (w : world) : option (result unit * world) :=
  match l with
  | [] => Some (Ret tt, w)
  | x :: xs =>
      match body x w with
      | Some (Ret _, w') => for_each_fuel xs body w'
      | other => other
      end
  end.

Section WithDevice.

Variable dev : device.

(** [run_mpremote]: the one place that runs the tool.  The result is
    [Some] of the stripped standard output when it is captured, [None]
    (Python's [None]) otherwise. *)
Definition run_mpremote (args_list : list string) (capture_output exit_on_error : bool)
  : M (option string) :=
  fun w =>
    let cmd := "mpremote" :: args_list in
    let res := dev (commands (log w)) cmd in
    let w1 := mkWorld (fs w) (clock w) (log w ++ [Run cmd res]) in
    match res with
    | DevOk out => (Ret (if capture_output then Some (strip out) else None), w1)
    | DevFail rc =>
        if exit_on_error
        then (emit (PrintToolError cmd rc) ;; sys_exit 1) w1
        else (Ret None, w1)
    end.

Definition get_last_upload_time (path : parts) : M time :=
  let timestamp_file := path ++ [TIMESTAMP_FILE_NAME] in
  emit (MarkerExists timestamp_file) ;;
  t <- get_fs ;;
  match lookup timestamp_file t with
  | None => ret 0%Z
  | Some n =>
      emit (MarkerRead timestamp_file) ;;
      match n with
      | File _ (Some v) => ret v
      | File _ None => raise "ValueError"
      | Dir _ => raise "IsADirectoryError"
      | Special => raise "OSError"
      end
  end.

Definition update_upload_time (path : parts) : M unit :=
  let timestamp_file := path ++ [TIMESTAMP_FILE_NAME] in
  now <- time_time ;;
  emit (MarkerWrite timestamp_file now) ;;
  t <- get_fs ;;
  match lookup timestamp_file t with
  | Some (Dir _) => raise "IsADirectoryError"
  | Some Special => raise "OSError"
  | _ => put_fs (write_entry path TIMESTAMP_FILE_NAME (File now (Some now)) t)
  end.

(** [upload_path(path_str, force)]; [path] is [Path(path_str).resolve()]. *)
Definition upload_path (path : parts) (force : bool) : M unit :=
  t <- get_fs ;;
  match lookup path t with
  | Some (Dir es) =>
      last_upload_time <- get_last_upload_time path ;;
      print ("Scanning for modified files in '" ++ abs_str path ++ "'..." ++ nl) ;;
      let files_to_upload := scan force last_upload_time (Dir es) in
      match files_to_upload with
      | [] => print "No files were modified since the last upload."
      | _ :: _ =>
          for_each (sorted (folders_to_create files_to_upload))
            (fun folder => _ <- run_mpremote (mkdir_args folder) false false ;; ret tt) ;;
          for_each files_to_upload
            (fun file =>
               _ <- run_mpremote (cp_args path file) false true ;;
               print ("Uploaded: " ++ as_posix (fst file))) ;;
          update_upload_time path ;;
          print (nl ++ "Upload complete.")
      end
  | _ =>
      print ("Error: Directory not found at " ++ abs_str path) ;;
      sys_exit 1
  end.

(** The two print steps of [list_all_files]: the directory line, then one
    indented line per file. *)
Definition print_directory (base_path : string) (files : list string) : M unit :=
  print (nl ++ rstrip_slash base_path ++ "/") ;;
  for_each files
    (fun f =>
       let space := spaces (String.length (rstrip_slash base_path) + 1) in
       print (space ++ f)).

Definition sub_path (base_path subdir : string) : string :=
  (rstrip_slash base_path ++ "/" ++ subdir)%string.

(** [list_all_files(base_path)].  The recursion follows what the device
    answers; [fuel] is the depth of nested calls the interpreter allows.
    [None] means that the calls nest deeper than that: there CPython
    raises [RecursionError], which no [except] of the script catches, so
    the process ends with a traceback. *)
Fixpoint list_all_files (fuel : nat) (base_path : string) (w : world)
  : option (result unit * world) :=
  match fuel with
  | O => None
  | S fuel' =>
      match run_mpremote ["fs"; "ls"; base_path] true true w with
      | (SystemExit _, w1) => Some (Ret tt, w1)
      | (Raised e, w1) => Some (Raised e, w1)
      | (Ret None, w1) => Some (Raised "AttributeError", w1)
      | (Ret (Some output), w1) =>
          let lines := splitlines (strip output) in
          if List.length lines <? 2 then Some (Ret tt, w1)
          else
            let entries := tl lines in
            let files := fst (classify entries) in
            let subdirs := snd (classify entries) in
            match print_directory base_path files w1 with
            | (Ret _, w2) =>
                for_each_fuel subdirs
                  (fun subdir => list_all_files fuel' (sub_path base_path subdir)) w2
            | (SystemExit c, w2) => Some (SystemExit c, w2)
            | (Raised e, w2) => Some (Raised e, w2)
            end
      end
  end.

End WithDevice.

End MpRemote.

(** ** The other commands of the script and [main] *)
Module Commands.
Import PyStr PyPath LocalFS Effects MpRemote.
Local Open Scope py_scope.

(** [try: body except CalledProcessError as e: handler(e)]: an exception
    of that name is handed to the handler, anything else passes through.
    The exception is known by its name, which also stands for its text. *)
Definition try_except {A} (exn_name : string) (body : M A) (handler : string -> M A) : M A :=
  fun w =>
    match body w with
    | (Raised e, w') => if String.eqb e exn_name then handler e w' else (Raised e, w')
    | other => other
    end.

(** The line printed before and after the command by [main]: a line
    feed, 67 equal signs, a line feed. *)
Definition banner : string :=
  (nl ++ "===================================================================" ++ nl)%string.

(** The [choices] of the positional argument of the parser. *)
Definition choices : list string :=
  ["delete_all"; "upload_path"; "soft_reset"; "terminal"; "list_files"].

(** The parsed arguments: [args.command], [args.path] (the resolved path,
    [None] when [--path] is not given) and [args.force_upload]. *)
Record args : Type := mkArgs {
  arg_command : string;
  arg_path : option parts;
  arg_force_upload : bool
}.

Section WithDevice.

Variable dev : device.

Definition delete_all_files : M unit :=
  print "Deleting all files on ESP32..." ;;
  try_except "CalledProcessError"
    (_ <- run_mpremote dev ["fs"; "rm"; "-r"; ESP_ROOT] false true ;; ret tt)
    (fun e => print ("Error deleting files on ESP32: " ++ e) ;; sys_exit 1) ;;
  print "All files removed from ESP32.".

Definition soft_reset : M unit :=
  print "Performing soft reset on ESP32..." ;;
  _ <- run_mpremote dev ["reset"] false true ;;
  print "Soft reset sent.".

Definition terminal : M unit :=
  print "Opening REPL terminal. Press Ctrl-D to exit." ;;
  _ <- run_mpremote dev ["repl"] false true ;;
  ret tt.

(** The command a value of [args.command] selects, in the order of the
    [if]/[elif] chain of [main].  [upload_path(None)] ends in the
    [TypeError] of [Path(None)]. *)
Definition dispatch (fuel : nat) (a : args) (w : world) : option (result unit * world) :=
  if String.eqb (arg_command a) "delete_all" then Some (delete_all_files w)
  else if String.eqb (arg_command a) "upload_path" then
    match arg_path a with
    | Some p => Some (upload_path dev p (arg_force_upload a) w)
    | None => Some (raise "TypeError" w)
    end
  else if String.eqb (arg_command a) "soft_reset" then Some (soft_reset w)
  else if String.eqb (arg_command a) "terminal" then Some (terminal w)
  else if String.eqb (arg_command a) "list_files" then list_all_files dev fuel ":/" w
  else Some (print ("Unknown command: " ++ arg_command a) w).

(** [main()] after [parser.parse_args()]: the banner, the command, the
    banner again when the command returns. *)
Definition main (fuel : nat) (a : args) (w : world) : option (result unit * world) :=
  match dispatch fuel a (snd (print banner w)) with
  | Some (Ret _, w') => Some (print banner w')
  | other => other
  end.

End WithDevice.

End Commands.

Import PyStr PyPath LocalFS Effects MpRemote Commands.

(** ** Notions the statements are written with *)

(** The marker of the scan root [path] in the tree [t] is [T]: the marker
    file holds the float [T], or there is no marker file and [T] is the
    default 0. *)
Definition persisted_marker (t : node) (path : parts) (T : time) : Prop :=
  match lookup (path ++ [TIMESTAMP_FILE_NAME]) t with
  | None => T = 0%Z
  | Some (File _ (Some v)) => T = v
  | Some _ => False
  end.

(** The full command lines of the two requests of [upload_path]. *)
Definition mkdir_cmd (folder : string) : list string := "mpremote" :: mkdir_args folder.

Definition cp_cmd (path : parts) (file : parts * node) : list string :=
  "mpremote" :: cp_args path file.

Definition ls_cmd (base_path : string) : list string := ["mpremote"; "fs"; "ls"; base_path].

(** The file-copy requests among the command lines of a log. *)
Definition is_cp (cmd : list string) : bool :=
  match cmd with
  | _ :: "fs" :: "cp" :: _ => true
  | _ => false
  end.

Definition cp_requests (l : list event) : list (list string) := filter is_cp (commands l).

(** The log extended by some events, everything else as it was. *)
Definition logged (w : world) (evs : list event) : world :=
  mkWorld (fs w) (clock w) (log w ++ evs).

(** The subdirectories the listing loop recurses into, for one answer of
    the device to a listing request. *)
Definition subdirs_of_answer (res : dev_result) : list string :=
  match res with
  | DevOk out =>
      let lines := splitlines (strip (strip out)) in
      if List.length lines <? 2 then [] else snd (classify (tl lines))
  | DevFail _ => []
  end.

(** The answers of the device describe, below [base_path], a tree of
    fewer than [d] nested levels of subdirectories: whatever was run
    before, a listing of [base_path] names only subdirectories below which
    there are fewer than [d - 1] levels. *)
Fixpoint tree_below (dev : device) (d : nat) (base_path : string) : Prop :=
  match d with
  | O => False
  | S d' =>
      forall h s,
        In s (subdirs_of_answer (dev h (ls_cmd base_path))) ->
        tree_below dev d' (sub_path base_path s)
  end.

(** The names one listing line contributes. *)
Definition line_names (line : string) : list string :=
  match split (strip line) with
  | [] => []
  | tokens => [last tokens EmptyString]
  end.

(** The listing step as the specification words it: the entry names are
    the last white-space delimited tokens of the lines after the header
    (lines without a token give none); the subdirectories are the names
    that end in the separator, without it, the files are the other
    names. *)
Definition spec_entry_names (lines : list string) : list string :=
  flat_map
    (fun line =>
       match split (strip line) with
       | [] => []
       | tokens => [last tokens EmptyString]
       end)
    (tl lines).

Definition spec_files (lines : list string) : list string :=
  filter (fun nm => negb (endswith_slash nm)) (spec_entry_names lines).

Definition spec_subdirs (lines : list string) : list string :=
  map rstrip_slash (filter endswith_slash (spec_entry_names lines)).

(** Every name in the tree is non-empty, as the names of a file system
    are. *)
Fixpoint names_ok (n : node) : bool :=
  match n with
  | Dir es => forallb (fun e => negb (String.eqb (fst e) EmptyString) && names_ok (snd e)) es
  | _ => true
  end.

(** ** Concrete trees, worlds and devices *)

(** A project with a new file at the top, a denylisted file, a new file
    in a subdirectory and a marker of time 5. *)
Definition proj_tree : node :=
  Dir [("proj",
        Dir [("a.py", File 10%Z None);
             ("old.md", File 20%Z None);
             ("sub", Dir [("b.py", File 30%Z None)]);
             ("last_upload_time.txt", File 5%Z (Some 5%Z))])].

Definition proj_entries : list (string * node) :=
  [("a.py", File 10%Z None);
   ("old.md", File 20%Z None);
   ("sub", Dir [("b.py", File 30%Z None)]);
   ("last_upload_time.txt", File 5%Z (Some 5%Z))].

Definition proj_world : world := mkWorld proj_tree 100%Z [].

(** The same project when nothing is newer than its marker of time 50. *)
Definition idle_entries : list (string * node) :=
  [("a.py", File 10%Z None); ("last_upload_time.txt", File 50%Z (Some 50%Z))].

Definition idle_world : world := mkWorld (Dir [("proj", Dir idle_entries)]) 100%Z [].

(** A device that accepts every request, and one that refuses every
    request with status 1. *)
Definition dev_ok : device := fun _ _ => DevOk EmptyString.

Definition dev_down : device := fun _ _ => DevFail 1.

(** A device with the file [main.py] and the directory [lib] at its root,
    and the file [util.py] in [lib]. *)
Definition dev_two_level : device :=
  fun _ cmd =>
    match cmd with
    | ["mpremote"; "fs"; "ls"; p] =>
        if String.eqb p ":/"
        then DevOk ("ls :/" ++ nl ++ "         139 main.py" ++ nl ++ "           0 lib/" ++ nl)
        else if String.eqb p ":/lib"
        then DevOk ("ls :/lib" ++ nl ++ "          12 util.py" ++ nl)
        else DevFail 1
    | _ => DevFail 1
    end.

(** A device whose root holds the file [main.py] and a directory [gone]
    that cannot be listed, followed by a directory [lib] that can. *)
Definition dev_broken_branch : device :=
  fun _ cmd =>
    match cmd with
    | ["mpremote"; "fs"; "ls"; p] =>
        if String.eqb p ":/"
        then DevOk ("ls :/" ++ nl ++ "         139 main.py" ++ nl ++ "           0 gone/" ++ nl
                    ++ "           0 lib/" ++ nl)
        else if String.eqb p ":/lib"
        then DevOk ("ls :/lib" ++ nl ++ "          12 util.py" ++ nl)
        else DevFail 1
    | _ => DevFail 1
    end.

(** A device whose root is an empty directory: the listing is the header
    line alone. *)
Definition dev_header_only : device :=
  fun _ cmd =>
    match cmd with
    | ["mpremote"; "fs"; "ls"; _] => DevOk ("ls :/" ++ nl)
    | _ => DevFail 1
    end.

(** A device that reports, in every directory, a subdirectory whose name
    is the separator alone: the path built for it is the path of the
    directory itself. *)
Definition dev_self_reference : device :=
  fun _ _ => DevOk ("ls :/" ++ nl ++ "           0 /" ++ nl).

Definition empty_world : world := mkWorld (Dir []) 0%Z [].

(** A device that refuses every directory request and accepts everything
    else. *)
Definition dev_no_mkdir : device :=
  fun _ cmd =>
    match cmd with
    | [_; "fs"; "mkdir"; _] => DevFail 1
    | _ => DevOk EmptyString
    end.

(** A device that accepts the first copy and refuses the following
    ones. *)
Definition dev_second_copy_fails : device :=
  fun h cmd =>
    match cmd with
    | _ :: "fs" :: "cp" :: _ =>
        if existsb (fun c => match c with _ :: "fs" :: "cp" :: _ => true | _ => false end) h
        then DevFail 1
        else DevOk EmptyString
    | _ => DevOk EmptyString
    end.

(** A project with nested folders and dot files. *)
Definition nested_entries : list (string * node) :=
  [("a", Dir [("x.py", File 10%Z None);
              ("b", Dir [("y.py", File 20%Z None)])]);
   ("z.py", File 30%Z None);
   (".gitignore", File 40%Z None);
   ("backup.tar.gz", File 50%Z None)].

Definition nested_world : world := mkWorld (Dir [("proj", Dir nested_entries)]) 100%Z [].

(** The events of a copy the device refused. *)
Definition failed_cp (e : event) : bool :=
  match e with
  | Run cmd (DevFail _) => is_cp cmd
  | _ => false
  end.

(** The listing requests. *)
Definition is_ls (cmd : list string) : bool :=
  match cmd with
  | ["mpremote"; "fs"; "ls"; _] => true
  | _ => false
  end.

(** The line printed after a copy that succeeded. *)
Definition uploaded_line (file : parts * node) : event :=
  Print ("Uploaded: " ++ as_posix (fst file)).

(** One path continues the other. *)
Definition prefix_of (a b : parts) : Prop := exists c, b = a ++ c.

(** The string order of [sorted], as a relation. *)
Definition str_le (a b : string) : Prop := String.leb a b = true.

(** What a listing may change of a world: it only adds events, the
    commands among them are listing requests, and the local tree and the
    clock stay. *)
Definition listed (w w' : world) : Prop :=
  fs w' = fs w
  /\ clock w' = clock w
  /\ exists evs, log w' = log w ++ evs /\ forallb is_ls (commands evs) = true.

(** The one command line behind each of the three commands of [main]
    that are a single request. *)
Definition simple_command_line (command : string) : option (list string) :=
  if String.eqb command "delete_all" then Some ["mpremote"; "fs"; "rm"; "-r"; ":/"]
  else if String.eqb command "soft_reset" then Some ["mpremote"; "reset"]
  else if String.eqb command "terminal" then Some ["mpremote"; "repl"]
  else None.

(** [s.endswith(e)] *)
Fixpoint ends_with (s e : string) : bool :=
  String.eqb s e
  || match s with
     | EmptyString => false
     | String _ s' => ends_with s' e
     end.

(** The extension test as the specification words it: the file has an
    extension of the denylist, that is, its name ends in one of the
    entries ([notes.md], [backup.tar.gz], [.gitignore]). *)
Definition spec_denylisted (nm : string) : bool :=
  existsb (ends_with nm) IGNORED_SUFFIXES.

(** The candidate set of an unforced upload as the specification words
    it: the regular files below the root, at any depth, modified strictly
    after the marker and without an extension of the denylist. *)
Definition spec_candidates (T : time) (root : node) : list (parts * node) :=
  filter
    (fun file =>
       match snd file with
       | File mtime _ => (T <? mtime)%Z && negb (spec_denylisted (name (fst file)))
       | _ => false
       end)
    (rglob [] root).

(** The folders to create as the specification words them: the distinct
    relative parent directories of the files; a file at the top of the
    root lies in no directory below the root and gives none. *)
Definition spec_parent_folders (files : list (parts * node)) : list string :=
  nodup string_dec
    (flat_map
       (fun file =>
          match parent (fst file) with
          | [] => []
          | folder => [String.concat "/" folder]
          end)
       files).

(** A project with a dot file and an archive next to a new file, a
    denylisted note, a stale file and a marker of time 5. *)
Definition ignore_entries : list (string * node) :=
  [("a.py", File 10%Z None);
   (".gitignore", File 20%Z None);
   ("backup.tar.gz", File 30%Z None);
   ("notes.md", File 40%Z None);
   ("stale.py", File 3%Z None);
   ("last_upload_time.txt", File 5%Z (Some 5%Z))].

Definition ignore_world : world := mkWorld (Dir [("proj", Dir ignore_entries)]) 100%Z [].

(** The exit status of the process for a run of [main]: that of the way
    the run ends, and 1 for the traceback of the [RecursionError] when the
    calls nest deeper than the depth allowed. *)
Definition process_status (run : option (result unit * world)) : Z :=
  match run with
  | Some (r, _) => exit_status r
  | None => 1
  end.

(** ** The local tree: induction, walking and writing *)

#[local] Arguments String.append : simpl never.

Section NodeInduction.

Variable P : node -> Prop.
Hypothesis P_file : forall m c, P (File m c).
Hypothesis P_dir : forall es, Forall (fun e => P (snd e)) es -> P (Dir es).
Hypothesis P_special : P Special.

Fixpoint node_induction (n : node) : P n :=
  match n with
  | File m c => P_file m c
  | Dir es =>
      P_dir es
        ((fix entries_ok (l : list (string * node)) : Forall (fun e => P (snd e)) l :=
            match l with
            | [] => Forall_nil _
            | e :: l' => Forall_cons e (node_induction (snd e)) (entries_ok l')
            end) es)
  | Special => P_special
  end.

End NodeInduction.

Lemma under_rglob (n : node) (rel : parts) (x : node) :
  under n rel x -> forall pre, In (pre ++ rel, x) (rglob pre n).
Proof.
  induction 1 as [es nm c Hin | es nm c rel x Hin _ IH]; intro pre; simpl; apply in_or_app.
  - left. apply in_map_iff. exists (nm, c). split; [reflexivity | exact Hin].
  - right. apply in_flat_map. exists (nm, c). split; [exact Hin |].
    simpl. specialize (IH (pre ++ [nm])). rewrite <- app_assoc in IH. exact IH.
Qed.

Lemma rglob_under (n : node) :
  forall pre p x, In (p, x) (rglob pre n) -> exists rel, p = pre ++ rel /\ under n rel x.
Proof.
  induction n as [m c | es IH | ] using node_induction; intros pre p x Hin; simpl in Hin;
    try contradiction.
  apply in_app_or in Hin. destruct Hin as [Hin | Hin].
  - apply in_map_iff in Hin. destruct Hin as [[nm c] [Heq Hin]].
    simpl in Heq. inversion Heq; subst.
    exists [nm]. split; [reflexivity | now apply under_child].
  - apply in_flat_map in Hin. destruct Hin as [[nm c] [Hin Hsub]].
    simpl in Hsub. rewrite Forall_forall in IH.
    destruct (IH (nm, c) Hin _ _ _ Hsub) as [rel [Heq Hu]].
    exists (nm :: rel). split.
    + rewrite Heq, <- app_assoc. reflexivity.
    + now apply under_deeper with (c := c).
Qed.

(** The walk yields exactly the nodes below the root, at every depth. *)
Lemma rglob_spec (n : node) (rel : parts) (x : node) :
  In (rel, x) (rglob [] n) <-> under n rel x.
Proof.
  split.
  - intro Hin. destruct (rglob_under n [] rel x Hin) as [rel' [Heq Hu]].
    simpl in Heq. now subst.
  - intro Hu. exact (under_rglob n rel x Hu []).
Qed.

Lemma get_set_entry (nm : string) (v : node) (es : list (string * node)) :
  get_entry nm (set_entry nm v es) = Some v.
Proof.
  unfold get_entry. induction es as [| [k x] es IH]; simpl.
  - rewrite String.eqb_refl. reflexivity.
  - destruct (String.eqb k nm) eqn:E; simpl; rewrite E; [reflexivity | exact IH].
Qed.

Lemma lookup_app (p q : parts) (n : node) :
  lookup (p ++ q) n =
  match lookup p n with
  | Some x => lookup q x
  | None => None
  end.
Proof.
  revert n. induction p as [| c p IH]; intro n; simpl; [reflexivity |].
  destruct n as [ | es | ]; try reflexivity.
  destruct (get_entry c es); [apply IH | reflexivity].
Qed.

(** Writing a file into an existing directory makes it the file found
    there. *)
Lemma lookup_write_entry (p : parts) (nm : string) (v : node) :
  forall n es,
    lookup p n = Some (Dir es) ->
    lookup (p ++ [nm]) (write_entry p nm v n) = Some v.
Proof.
  induction p as [| c p IH]; intros n es Hl; simpl in Hl.
  - inversion Hl; subst. simpl. rewrite get_set_entry. reflexivity.
  - destruct n as [ | es0 | ]; try discriminate.
    destruct (get_entry c es0) as [x |] eqn:E; try discriminate.
    destruct p; simpl; rewrite E; simpl; rewrite get_set_entry; eapply IH; eassumption.
Qed.

(** ** The log and the requests of a run *)

Lemma commands_app (a b : list event) : commands (a ++ b) = commands a ++ commands b.
Proof. unfold commands. apply flat_map_app. Qed.

Lemma printed_app (a b : list event) : printed (a ++ b) = printed a ++ printed b.
Proof. unfold printed. apply filter_app. Qed.

Lemma cp_requests_app (a b : list event) : cp_requests (a ++ b) = cp_requests a ++ cp_requests b.
Proof. unfold cp_requests. rewrite commands_app. apply filter_app. Qed.

Lemma logged_logged (w : world) (a b : list event) :
  logged (logged w a) b = logged w (a ++ b).
Proof. unfold logged. simpl. rewrite <- app_assoc. reflexivity. Qed.

Lemma logged_nil (w : world) : logged w [] = w.
Proof. destruct w. unfold logged. simpl. rewrite app_nil_r. reflexivity. Qed.

Lemma filter_cp_mkdir (l : list string) : filter is_cp (map mkdir_cmd l) = [].
Proof. induction l; simpl; auto. Qed.

Lemma filter_cp_cp (path : parts) (l : list (parts * node)) :
  filter is_cp (map (cp_cmd path) l) = map (cp_cmd path) l.
Proof. induction l; simpl; congruence. Qed.

Lemma cp_requests_quiet (w : world) (evs : list event) :
  commands evs = [] -> cp_requests (log (logged w evs)) = cp_requests (log w) ++ [].
Proof.
  intro Hc. simpl. rewrite cp_requests_app. unfold cp_requests at 2. rewrite Hc. reflexivity.
Qed.

Section Runs.

Variable dev : device.

(** One run of the tool, case by case. *)
Lemma run_mpremote_eq (args_list : list string) (capture_output exit_on_error : bool) (w : world) :
  run_mpremote dev args_list capture_output exit_on_error w =
  let cmd := "mpremote" :: args_list in
  match dev (commands (log w)) cmd with
  | DevOk out =>
      (Ret (if capture_output then Some (strip out) else None), logged w [Run cmd (DevOk out)])
  | DevFail rc =>
      if exit_on_error
      then (SystemExit 1, logged w [Run cmd (DevFail rc); PrintToolError cmd rc])
      else (Ret None, logged w [Run cmd (DevFail rc)])
  end.
Proof.
  unfold run_mpremote. simpl.
  destruct (dev (commands (log w)) ("mpremote" :: args_list)) as [out | rc]; [reflexivity |].
  destruct exit_on_error; [| reflexivity].
  unfold bind, emit, sys_exit, logged. simpl. rewrite <- app_assoc. reflexivity.
Qed.

(** The directory-creation loop always runs to its end, whatever the
    device answers. *)
Lemma mkdir_loop (folders : list string) :
  forall w, exists evs,
    for_each folders
      (fun folder => Effects.bind (run_mpremote dev (mkdir_args folder) false false) (fun _ => ret tt)) w
    = (Ret tt, logged w evs)
    /\ commands evs = map mkdir_cmd folders
    /\ printed evs = []
    /\ filter is_marker_event evs = [].
Proof.
  induction folders as [| folder folders IH]; intro w; simpl.
  - exists []. rewrite logged_nil. repeat split; reflexivity.
  - unfold bind at 1. unfold bind at 1. rewrite run_mpremote_eq. simpl.
    set (res := dev (commands (log w)) ("mpremote" :: mkdir_args folder)).
    assert (Hstep : exists e, (match res with
                     | DevOk out => (@Ret (option string) None, logged w [Run ("mpremote" :: mkdir_args folder) (DevOk out)])
                     | DevFail rc => (Ret None, logged w [Run ("mpremote" :: mkdir_args folder) (DevFail rc)])
                     end) = (Ret None, logged w [Run ("mpremote" :: mkdir_args folder) e])).
    { destruct res; eexists; reflexivity. }
    destruct Hstep as [e He]. rewrite He. unfold ret at 1.
    destruct (IH (logged w [Run ("mpremote" :: mkdir_args folder) e])) as [evs [Hrun [Hc [Hp Hm]]]].
    exists (Run ("mpremote" :: mkdir_args folder) e :: evs).
    rewrite Hrun, logged_logged. simpl. repeat split.
    + unfold commands in *. simpl. rewrite Hc. reflexivity.
    + exact Hp.
    + exact Hm.
Qed.

(** The copy loop stops at the first copy that fails, with
    [SystemExit(1)]; the files before it have been requested, in order. *)
Lemma cp_loop (path : parts) (files : list (parts * node)) :
  forall w, exists k evs r,
    for_each files
      (fun file =>
         Effects.bind (run_mpremote dev (cp_args path file) false true)
           (fun _ => print ("Uploaded: " ++ as_posix (fst file)))) w
    = (r, logged w evs)
    /\ commands evs = map (cp_cmd path) (firstn k files)
    /\ k <= List.length files
    /\ ((r = Ret tt /\ k = List.length files) \/ r = SystemExit 1)
    /\ filter is_marker_event evs = [].
Proof.
  induction files as [| file files IH]; intro w; simpl.
  - exists 0, [], (Ret tt). rewrite logged_nil. repeat split; auto.
  - unfold bind at 1. unfold bind at 1. rewrite run_mpremote_eq. simpl.
    destruct (dev (commands (log w)) ("mpremote" :: cp_args path file)) as [out | rc].
    + unfold print at 1, emit at 1. simpl.
      set (w1 := {| fs := fs w; clock := clock w; log := _ |}).
      destruct (IH w1) as [k [evs [r [Hrun [Hc [Hk [Hr Hm]]]]]]].
      exists (S k), (Run ("mpremote" :: cp_args path file) (DevOk out)
                     :: Print ("Uploaded: " ++ as_posix (fst file)) :: evs), r.
      rewrite Hrun. subst w1. unfold logged. simpl. rewrite <- !app_assoc. simpl.
      repeat split; auto.
      * unfold commands in *. simpl. rewrite Hc. reflexivity.
      * lia.
      * destruct Hr as [[Hr Hl] | Hr]; [left; split; [exact Hr | lia] | right; exact Hr].
    + exists 1, [Run ("mpremote" :: cp_args path file) (DevFail rc);
                 PrintToolError ("mpremote" :: cp_args path file) rc], (SystemExit 1).
      repeat split; auto. simpl. lia.
Qed.

(** Reading the marker runs no command and leaves the tree alone; when it
    returns, it returns the persisted marker. *)
Lemma get_last_upload_time_run (path : parts) (w : world) :
  exists evs r,
    get_last_upload_time path w = (r, logged w evs)
    /\ commands evs = []
    /\ printed evs = []
    /\ (forall T, r = Ret T -> persisted_marker (fs w) path T)
    /\ (forall T, persisted_marker (fs w) path T -> r = Ret T).
Proof.
  unfold get_last_upload_time, persisted_marker, bind, emit, get_fs. simpl.
  destruct (lookup (path ++ [TIMESTAMP_FILE_NAME]) (fs w)) as [n |] eqn:E.
  - simpl. exists [MarkerExists (path ++ [TIMESTAMP_FILE_NAME]);
                   MarkerRead (path ++ [TIMESTAMP_FILE_NAME])].
    destruct n as [m [v |] | es | ]; eexists;
      (split; [unfold logged; simpl; rewrite <- app_assoc; reflexivity |]);
      repeat split; try reflexivity; try (intros T H; inversion H; reflexivity);
      try (intros T H; congruence); try (intros T H; contradiction).
  - exists [MarkerExists (path ++ [TIMESTAMP_FILE_NAME])], (Ret 0%Z).
    repeat split; try reflexivity; intros T H; inversion H; reflexivity.
Qed.

End Runs.

(** ** The runs of [upload_path], case by case *)

Section UploadRuns.

Variable dev : device.

(** The root is no directory: one diagnostic, [SystemExit(1)], nothing
    else. *)
Lemma upload_path_not_dir (path : parts) (force : bool) (w : world) :
  is_dir (lookup path (fs w)) = false ->
  upload_path dev path force w =
  (SystemExit 1, logged w [Print ("Error: Directory not found at " ++ abs_str path)]).
Proof.
  intro Hd. unfold upload_path, bind at 1, get_fs.
  destruct (lookup path (fs w)) as [[m c | es | ] |]; try discriminate; reflexivity.
Qed.

(** The marker cannot be read: the exception leaves [upload_path] before
    anything is run. *)
Lemma upload_path_marker_raises (path : parts) (force : bool) (w : world) es :
  lookup path (fs w) = Some (Dir es) ->
  (forall T, ~ persisted_marker (fs w) path T) ->
  exists evs r,
    upload_path dev path force w = (r, logged w evs) /\ commands evs = [] /\ printed evs = [].
Proof.
  intros Hl Hno. unfold upload_path, bind at 1, get_fs. rewrite Hl.
  destruct (get_last_upload_time_run path w) as [evs [r [Hrun [Hc [Hp [Hret _]]]]]].
  unfold bind at 1. rewrite Hrun.
  destruct r as [T | c | e].
  - exfalso. exact (Hno T (Hret T eq_refl)).
  - exists evs, (SystemExit c). auto.
  - exists evs, (Raised e). auto.
Qed.

(** Nothing to upload. *)
Lemma upload_path_empty (path : parts) (force : bool) (w : world) es T :
  lookup path (fs w) = Some (Dir es) ->
  persisted_marker (fs w) path T ->
  scan force T (Dir es) = [] ->
  exists evs,
    upload_path dev path force w = (Ret tt, logged w evs)
    /\ commands evs = []
    /\ printed evs
       = [Print ("Scanning for modified files in '" ++ abs_str path ++ "'..." ++ nl);
          Print "No files were modified since the last upload."]
    /\ (forall p t, ~ In (MarkerWrite p t) evs).
Proof.
  intros Hl Hm Hs. unfold upload_path, bind at 1, get_fs. rewrite Hl.
  destruct (get_last_upload_time_run path w) as [evs [r [Hrun [Hc [Hp [_ Hret]]]]]].
  unfold bind at 1. rewrite Hrun, (Hret T Hm), Hs.
  exists (evs ++ [Print ("Scanning for modified files in '" ++ abs_str path ++ "'..." ++ nl);
                  Print "No files were modified since the last upload."]).
  split; [| split; [| split]].
  - unfold bind, print, emit, logged. simpl. rewrite <- !app_assoc. reflexivity.
  - rewrite commands_app, Hc. reflexivity.
  - rewrite printed_app, Hp. reflexivity.
  - intros p t Hin. apply in_app_or in Hin. destruct Hin as [Hin | Hin].
    + clear - Hrun Hin. unfold get_last_upload_time, bind, emit, get_fs in Hrun. simpl in Hrun.
      assert (Hlog : forall (r r' : result time) (a b : world), (r, a) = (r', b) -> log a = log b)
        by (intros ? ? ? ? H; inversion H; reflexivity).
      destruct (lookup (path ++ [TIMESTAMP_FILE_NAME]) (fs w)) as [[m [v |] | es | ] |];
        apply Hlog in Hrun; simpl in Hrun;
        repeat rewrite <- app_assoc in Hrun; apply app_inv_head in Hrun; subst evs;
        simpl in Hin; intuition discriminate.
    + simpl in Hin. destruct Hin as [Hin | [Hin | []]]; discriminate.
Qed.

(** Something to upload: the directory requests, then the copies up to
    the first that fails, then, when none failed, the new marker. *)
Lemma upload_path_nonempty (path : parts) (force : bool) (w : world) es T :
  lookup path (fs w) = Some (Dir es) ->
  persisted_marker (fs w) path T ->
  scan force T (Dir es) <> [] ->
  exists k evs r fs',
    upload_path dev path force w = (r, mkWorld fs' (clock w) (log w ++ evs))
    /\ commands evs =
       map mkdir_cmd (sorted (folders_to_create (scan force T (Dir es))))
       ++ map (cp_cmd path) (firstn k (scan force T (Dir es)))
    /\ k <= List.length (scan force T (Dir es))
    /\ ((r = Ret tt /\ k = List.length (scan force T (Dir es))
         /\ fs' = write_entry path TIMESTAMP_FILE_NAME (File (clock w) (Some (clock w))) (fs w))
        \/ (r = SystemExit 1 /\ fs' = fs w)).
Proof.
  intros Hl Hm Hs. unfold upload_path, bind at 1, get_fs. rewrite Hl.
  destruct (get_last_upload_time_run path w) as [evs0 [r0 [Hrun0 [Hc0 [_ [_ Hret]]]]]].
  unfold bind at 1. rewrite Hrun0, (Hret T Hm).
  unfold bind at 1, print at 1, emit at 1.
  set (w1 := {| fs := _; clock := _; log := _ |}).
  destruct (scan force T (Dir es)) as [| f files] eqn:Hscan; [congruence |].
  set (cands := f :: files) in *.
  destruct (mkdir_loop dev (sorted (folders_to_create cands)) w1) as [evs1 [Hrun1 [Hc1 _]]].
  unfold bind at 1. rewrite Hrun1.
  destruct (cp_loop dev path cands (logged w1 evs1)) as [k [evs2 [r [Hrun2 [Hc2 [Hk [Hr _]]]]]]].
  unfold bind at 1. rewrite Hrun2.
  destruct Hr as [[Hr Hlen] | Hr]; subst r.
  - exists k,
      (evs0 ++ [Print ("Scanning for modified files in '" ++ abs_str path ++ "'..." ++ nl)]
       ++ evs1 ++ evs2
       ++ [MarkerWrite (path ++ [TIMESTAMP_FILE_NAME]) (clock w); Print (nl ++ "Upload complete.")]),
      (Ret tt),
      (write_entry path TIMESTAMP_FILE_NAME (File (clock w) (Some (clock w))) (fs w)).
    split; [| split; [| split; [exact Hk | left; auto]]].
    + unfold bind at 1, update_upload_time, bind at 1, time_time, bind at 1, emit at 1,
        bind at 1, get_fs.
      cbn [fs clock log logged w1].
      unfold persisted_marker in Hm.
      destruct (lookup (path ++ [TIMESTAMP_FILE_NAME]) (fs w)) as [[m [v |] | es' | ] |];
        try contradiction;
        unfold put_fs, print, emit; cbn [fs clock log];
        rewrite <- !app_assoc; reflexivity.
    + rewrite !commands_app, Hc0, Hc1, Hc2. simpl. rewrite app_nil_r. reflexivity.
  - exists k,
      (evs0 ++ [Print ("Scanning for modified files in '" ++ abs_str path ++ "'..." ++ nl)]
       ++ evs1 ++ evs2),
      (SystemExit 1), (fs w).
    split; [| split; [| split; [exact Hk | right; auto]]].
    + unfold w1, logged. cbn [fs clock log]. rewrite <- !app_assoc. reflexivity.
    + rewrite !commands_app, Hc0, Hc1, Hc2. reflexivity.
Qed.

End UploadRuns.

(** ** The candidates and the folders *)

Lemma mem_In (x : string) (l : list string) : mem x l = true <-> In x l.
Proof.
  unfold mem. rewrite existsb_exists. split.
  - intros [y [Hin Heq]]. apply String.eqb_eq in Heq. now subst.
  - intro Hin. exists x. split; [exact Hin | apply String.eqb_refl].
Qed.

Lemma mem_false (x : string) (l : list string) : mem x l = false <-> ~ In x l.
Proof.
  rewrite <- mem_In. destruct (mem x l); split; intro H; congruence.
Qed.

(** What [wanted] keeps. *)
Lemma wanted_spec (force : bool) (T : time) (rel : parts) (x : node) :
  wanted force T (rel, x) = true <->
  exists m c, x = File m c /\ ~ In (suffix rel) IGNORED_SUFFIXES /\ (force = true \/ (T < m)%Z).
Proof.
  unfold wanted. cbn [fst snd]. destruct x as [m c | es | ].
  - destruct (mem (suffix rel) IGNORED_SUFFIXES) eqn:E.
    + split; [discriminate |]. intros [m' [c' [_ [Hno _]]]].
      apply mem_In in E. contradiction.
    + apply mem_false in E. rewrite orb_true_iff, Z.ltb_lt. split.
      * intro H. exists m, c. auto.
      * intros [m' [c' [Heq [_ H]]]]. inversion Heq; subst. exact H.
  - split; [discriminate | intros [m [c [H _]]]; discriminate].
  - split; [discriminate | intros [m [c [H _]]]; discriminate].
Qed.

(** The candidates are the regular files below the root, at any depth,
    that pass the suffix test and the time test. *)
Lemma scan_spec (force : bool) (T : time) (root : node) (rel : parts) (x : node) :
  In (rel, x) (scan force T root) <->
  under root rel x /\
  exists m c, x = File m c /\ ~ In (suffix rel) IGNORED_SUFFIXES /\ (force = true \/ (T < m)%Z).
Proof.
  unfold scan. rewrite filter_In, rglob_spec, wanted_spec. reflexivity.
Qed.

Lemma denylisted_not_scanned (force : bool) (T : time) (root : node) (rel : parts) :
  In (suffix rel) IGNORED_SUFFIXES -> ~ In rel (map fst (scan force T root)).
Proof.
  intros Hs Hin. apply in_map_iff in Hin. destruct Hin as [[rel' x] [Heq Hin]].
  simpl in Heq. subst rel'. apply scan_spec in Hin.
  destruct Hin as [_ [m [c [_ [Hno _]]]]]. contradiction.
Qed.

Lemma insert_sorted_perm (x : string) (l : list string) :
  Permutation (insert_sorted x l) (x :: l).
Proof.
  induction l as [| y l IH]; simpl; [reflexivity |].
  destruct (String.leb x y); [reflexivity |].
  rewrite IH. apply perm_swap.
Qed.

(** Sorting keeps the elements and their multiplicity. *)
Lemma sorted_perm (l : list string) : Permutation (sorted l) l.
Proof.
  induction l as [| x l IH]; simpl; [reflexivity |].
  rewrite insert_sorted_perm. now apply perm_skip.
Qed.

Lemma set_add_In (x y : string) (s : list string) :
  In y (set_add x s) <-> y = x \/ In y s.
Proof.
  unfold set_add. destruct (mem x s) eqn:E.
  - apply mem_In in E. split; [auto | intros [-> | H]; assumption].
  - rewrite in_app_iff. simpl. intuition.
Qed.

Lemma set_add_NoDup (x : string) (s : list string) : NoDup s -> NoDup (set_add x s).
Proof.
  intro Hnd. unfold set_add. destruct (mem x s) eqn:E; [exact Hnd |].
  apply mem_false in E.
  apply (Permutation_NoDup (l := x :: s)).
  - apply Permutation_cons_append.
  - now constructor.
Qed.

(** The folder set after the loop over the candidates, from any set it
    starts with. *)
Lemma folders_loop (files : list (parts * node)) :
  forall acc,
    NoDup acc ->
    let res :=
      fold_left
        (fun acc file =>
           if String.eqb (relative_folder file) EmptyString then acc
           else set_add (relative_folder file) acc)
        files acc in
    NoDup res /\
    (forall d, In d res <->
               In d acc \/ (d <> EmptyString /\ exists file, In file files /\ d = relative_folder file)).
Proof.
  induction files as [| f files IH]; intros acc Hnd; simpl.
  - split; [exact Hnd |]. intro d. split; [auto | intros [H | [_ [file [[] _]]]]; exact H].
  - destruct (String.eqb (relative_folder f) EmptyString) eqn:E.
    + destruct (IH acc Hnd) as [Hn Hi]. split; [exact Hn |].
      intro d. rewrite Hi. apply String.eqb_eq in E. split.
      * intros [H | [Hd [file [Hin Heq]]]]; [auto | right; split; eauto].
      * intros [H | [Hd [file [[Hin | Hin] Heq]]]]; [auto | | right; split; eauto].
        subst file. congruence.
    + destruct (IH _ (set_add_NoDup (relative_folder f) acc Hnd)) as [Hn Hi].
      split; [exact Hn |]. intro d. rewrite Hi, set_add_In.
      apply String.eqb_neq in E. split.
      * intros [[H | H] | [Hd [file [Hin Heq]]]]; [| auto | right; split; eauto].
        right. split; [congruence | exists f; auto].
      * intros [H | [Hd [file [[Hin | Hin] Heq]]]]; [auto | | right; split; eauto].
        subst file. auto.
Qed.

Lemma folders_to_create_NoDup (files : list (parts * node)) : NoDup (folders_to_create files).
Proof. apply (folders_loop files [] (NoDup_nil _)). Qed.

Lemma folders_to_create_In (files : list (parts * node)) (d : string) :
  In d (folders_to_create files) <->
  d <> EmptyString /\ exists file, In file files /\ d = relative_folder file.
Proof.
  destruct (folders_loop files [] (NoDup_nil _)) as [_ Hi].
  unfold folders_to_create. rewrite Hi. simpl. intuition.
Qed.

(** With non-empty names, no relative folder is the empty string: the
    test [if relative_folder:] of the script never skips a folder. *)
Lemma under_names (n : node) (rel : parts) (x : node) :
  under n rel x -> names_ok n = true -> Forall (fun c => c <> EmptyString) rel.
Proof.
  induction 1 as [es nm c Hin | es nm c rel x Hin _ IH]; intro Hok; simpl in Hok;
    rewrite forallb_forall in Hok; specialize (Hok _ Hin); simpl in Hok;
    apply andb_true_iff in Hok; destruct Hok as [Hnm Hc];
    apply negb_true_iff, String.eqb_neq in Hnm.
  - constructor; [exact Hnm | constructor].
  - constructor; [exact Hnm | exact (IH Hc)].
Qed.

Lemma as_posix_nonempty (p : parts) : Forall (fun c => c <> EmptyString) p -> as_posix p <> EmptyString.
Proof.
  destruct p as [| c [| c' p]]; simpl; intro H.
  - discriminate.
  - inversion H; assumption.
  - inversion H as [| ? ? Hc _]; subst. destruct c; [congruence | discriminate].
Qed.

Lemma Forall_removelast {A} (P : A -> Prop) (l : list A) : Forall P l -> Forall P (removelast l).
Proof.
  induction 1 as [| a l Ha Hl IH]; simpl; [constructor |].
  destruct l; [constructor | constructor; assumption].
Qed.

Lemma relative_folder_nonempty (root : node) (rel : parts) (x : node) :
  names_ok root = true -> under root rel x -> relative_folder (rel, x) <> EmptyString.
Proof.
  intros Hok Hu. unfold relative_folder, parent. simpl.
  apply as_posix_nonempty, Forall_removelast. exact (under_names _ _ _ Hu Hok).
Qed.

Lemma In_firstn {A} (k : nat) (l : list A) (x : A) : In x (firstn k l) -> In x l.
Proof.
  intro H. rewrite <- (firstn_skipn k l). apply in_or_app. left. exact H.
Qed.

Lemma NoDup_map_injective {A B} (f : A -> B) (l : list A) :
  (forall a b, f a = f b -> a = b) -> NoDup l -> NoDup (map f l).
Proof.
  intros Hinj. induction 1 as [| x l Hx Hl IH]; simpl; constructor; [| exact IH].
  intro Hin. apply in_map_iff in Hin. destruct Hin as [y [Heq Hy]].
  apply Hinj in Heq. subst y. contradiction.
Qed.

Lemma mkdir_cmd_inj (a b : string) : mkdir_cmd a = mkdir_cmd b -> a = b.
Proof.
  unfold mkdir_cmd, mkdir_args, esp_path. intro H.
  change (rstrip_slash ESP_ROOT) with ":" in H. cbv [String.append] in H.
  inversion H. reflexivity.
Qed.

(** Whatever the run, its copy requests are the copy commands of files
    that were candidates of a scan. *)
Lemma upload_path_copies (dev : device) (path : parts) (force : bool) (w : world) :
  exists files,
    cp_requests (log (snd (upload_path dev path force w)))
    = cp_requests (log w) ++ map (cp_cmd path) files
    /\ forall f, In f files -> exists T root, In f (scan force T root).
Proof.
  destruct (lookup path (fs w)) as [[m c | es | ] |] eqn:Hl;
    try (rewrite upload_path_not_dir by (rewrite Hl; reflexivity);
         exists []; split; [apply cp_requests_quiet; reflexivity | intros f []]).
  assert (Hdec : (exists T, persisted_marker (fs w) path T)
                 \/ (forall T, ~ persisted_marker (fs w) path T)).
  { unfold persisted_marker.
    destruct (lookup (path ++ [TIMESTAMP_FILE_NAME]) (fs w)) as [[m [v |] | es' | ] |];
      try (right; intros T H; exact H); left; eexists; reflexivity. }
  destruct Hdec as [[T Hm] | Hno].
  - destruct (scan force T (Dir es)) as [| f0 fl] eqn:Hs.
    + destruct (upload_path_empty dev path force w es T Hl Hm Hs) as [evs [Hrun [Hc _]]].
      rewrite Hrun. exists []. split; [apply cp_requests_quiet; exact Hc | intros f []].
    + assert (Hne : scan force T (Dir es) <> []) by (rewrite Hs; discriminate).
      destruct (upload_path_nonempty dev path force w es T Hl Hm Hne)
        as [k [evs [r [fs' [Hrun [Hc _]]]]]].
      rewrite Hrun. exists (firstn k (scan force T (Dir es))). simpl. split.
      * rewrite cp_requests_app. f_equal. unfold cp_requests.
        rewrite Hc, filter_app, filter_cp_mkdir, filter_cp_cp. reflexivity.
      * intros f Hin. exists T, (Dir es). eapply In_firstn. exact Hin.
  - destruct (upload_path_marker_raises dev path force w es Hl Hno) as [evs [r [Hrun [Hc _]]]].
    rewrite Hrun. exists []. split; [apply cp_requests_quiet; exact Hc | intros f []].
Qed.

Lemma denylisted_not_copied (dev : device) (path : parts) (force : bool) (w : world) (rel : parts) :
  In (suffix rel) IGNORED_SUFFIXES ->
  exists files,
    cp_requests (log (snd (upload_path dev path force w)))
    = cp_requests (log w) ++ map (cp_cmd path) files
    /\ ~ In rel (map fst files).
Proof.
  intro Hs. destruct (upload_path_copies dev path force w) as [files [Hreq Hfrom]].
  exists files. split; [exact Hreq |]. intro Hin.
  apply in_map_iff in Hin. destruct Hin as [[rel' x] [Heq Hin]]. simpl in Heq. subst rel'.
  destruct (Hfrom _ Hin) as [T [root Hscan]].
  apply (denylisted_not_scanned force T root rel Hs).
  apply in_map_iff. exists (rel, x). auto.
Qed.

(** ** The claims about [upload_path] *)

(** What the scan of an unforced upload keeps, as the code computes it:
    the regular files below the root, at any depth, whose modification
    time is strictly greater than the marker [T] and whose pathlib suffix
    is not in the denylist.  The copy requests of the run are those of the
    files kept, in order, up to the first copy the device refuses; a run
    that returns has requested the copy of every one. *)
Lemma incremental_candidates
  (dev : device) (path : parts) (es : list (string * node)) (T : time)
  (w w' : world) (r : result unit) :
  lookup path (fs w) = Some (Dir es) ->
  persisted_marker (fs w) path T ->
  upload_path dev path false w = (r, w') ->
  (forall rel x,
      In (rel, x) (scan false T (Dir es)) <->
      under (Dir es) rel x /\
      exists m c, x = File m c /\ (T < m)%Z /\ ~ In (suffix rel) IGNORED_SUFFIXES)
  /\ (exists k,
        cp_requests (log w')
        = cp_requests (log w) ++ map (cp_cmd path) (firstn k (scan false T (Dir es))))
  /\ (r = Ret tt ->
      cp_requests (log w') = cp_requests (log w) ++ map (cp_cmd path) (scan false T (Dir es))).
Proof.
  intros Hl Hm Hrun. split.
  - intros rel x. rewrite scan_spec. split.
    + intros [Hu [m [c [Hx [Hno [Hf | Ht]]]]]]; [discriminate |]. split; [exact Hu |]. eauto.
    + intros [Hu [m [c [Hx [Ht Hno]]]]]. split; [exact Hu |]. exists m, c. auto.
  - destruct (scan false T (Dir es)) as [| f0 fl] eqn:Hs.
    + destruct (upload_path_empty dev path false w es T Hl Hm Hs) as [evs [Hrun' [Hc _]]].
      rewrite Hrun in Hrun'. inversion Hrun'; subst.
      split; [exists 0 | intros _]; apply cp_requests_quiet; exact Hc.
    + assert (Hne : scan false T (Dir es) <> []) by (rewrite Hs; discriminate).
      destruct (upload_path_nonempty dev path false w es T Hl Hm Hne)
        as [k [evs [r' [fs' [Hrun' [Hc [Hk Hr]]]]]]].
      rewrite Hrun in Hrun'. inversion Hrun'; subst. simpl. rewrite Hs in *.
      assert (Heq : cp_requests (log w ++ evs)
                    = cp_requests (log w) ++ map (cp_cmd path) (firstn k (f0 :: fl))).
      { rewrite cp_requests_app. f_equal. unfold cp_requests.
        rewrite Hc, filter_app, filter_cp_mkdir, filter_cp_cp. reflexivity. }
      split; [exists k; exact Heq |].
      intro Hret. destruct Hr as [[_ [Hlen _]] | [Hr _]]; [| congruence].
      rewrite Heq, Hlen, firstn_all. reflexivity.
Qed.

(** A file whose pathlib suffix is in the denylist is kept by no scan,
    whatever the force flag, the marker and the tree, and no run of the
    upload requests its copy. *)
Lemma denylisted_suffix_never_uploaded
  (dev : device) (path : parts) (force : bool) (w : world) (rel : parts) :
  In (suffix rel) IGNORED_SUFFIXES ->
  (forall T root, ~ In rel (map fst (scan force T root)))
  /\ exists files,
       cp_requests (log (snd (upload_path dev path force w)))
       = cp_requests (log w) ++ map (cp_cmd path) files
       /\ ~ In rel (map fst files).
Proof.
  intro Hs. split.
  - intros T root. now apply denylisted_not_scanned.
  - now apply denylisted_not_copied.
Qed.

(** In an upload with candidates, the commands run are first one
    directory-creation request per distinct value of [relative_folder] on
    the candidates (each once, no other), then the copy requests.  For a
    file at the top of the root that value is ".", as pathlib writes the
    empty relative path. *)
Lemma folders_before_copies
  (dev : device) (path : parts) (force : bool) (es : list (string * node)) (T : time)
  (w w' : world) (r : result unit) :
  lookup path (fs w) = Some (Dir es) ->
  names_ok (Dir es) = true ->
  persisted_marker (fs w) path T ->
  scan force T (Dir es) <> [] ->
  upload_path dev path force w = (r, w') ->
  exists folders k,
    commands (log w')
    = commands (log w) ++ map mkdir_cmd folders
      ++ map (cp_cmd path) (firstn k (scan force T (Dir es)))
    /\ NoDup (map mkdir_cmd folders)
    /\ (forall d, In d folders <->
                  exists file, In file (scan force T (Dir es)) /\ d = relative_folder file).
Proof.
  intros Hl Hok Hm Hne Hrun.
  destruct (upload_path_nonempty dev path force w es T Hl Hm Hne)
    as [k [evs [r' [fs' [Hrun' [Hc _]]]]]].
  rewrite Hrun in Hrun'. inversion Hrun'; subst. simpl.
  exists (sorted (folders_to_create (scan force T (Dir es)))), k.
  split; [| split].
  - rewrite commands_app, Hc. reflexivity.
  - apply NoDup_map_injective; [exact mkdir_cmd_inj |].
    apply (Permutation_NoDup (l := folders_to_create (scan force T (Dir es)))).
    + symmetry. apply sorted_perm.
    + apply folders_to_create_NoDup.
  - intro d. split.
    + intro Hin. apply (Permutation_in _ (sorted_perm _)) in Hin.
      apply folders_to_create_In in Hin. tauto.
    + intros [[rel x] [Hin Heq]].
      apply (Permutation_in (l := folders_to_create (scan force T (Dir es))));
        [symmetry; apply sorted_perm |].
      apply folders_to_create_In. split; [| exists (rel, x); auto].
      subst d. apply scan_spec in Hin. destruct Hin as [Hu _].
      exact (relative_folder_nonempty _ _ _ Hok Hu).
Qed.

(** C1 (the code departs from the claim).  The claim: an unforced upload
    takes exactly the regular files newer than the marker whose extension
    is not in the denylist.  In the project of [ignore_world], with marker
    5, those are [a.py] alone: [.gitignore] and [backup.tar.gz] are newer
    but bear the denylisted extensions [.gitignore] and [.tar.gz].  The
    scan of the code keeps all three, because pathlib's suffix of
    [.gitignore] is empty and that of [backup.tar.gz] is [.gz], and the
    run requests the copy of each. *)
Theorem C1_denylisted_names_among_candidates :
  persisted_marker (fs ignore_world) ["proj"] 5%Z
  /\ map fst (spec_candidates 5%Z (Dir ignore_entries)) = [["a.py"]]
  /\ map fst (scan false 5%Z (Dir ignore_entries))
     = [["a.py"]; [".gitignore"]; ["backup.tar.gz"]]
  /\ map suffix [[".gitignore"]; ["backup.tar.gz"]] = [EmptyString; ".gz"]
  /\ fst (upload_path dev_ok ["proj"] false ignore_world) = Ret tt
  /\ cp_requests (log (snd (upload_path dev_ok ["proj"] false ignore_world)))
     = [["mpremote"; "fs"; "cp"; "/proj/a.py"; ":/a.py"];
        ["mpremote"; "fs"; "cp"; "/proj/.gitignore"; ":/.gitignore"];
        ["mpremote"; "fs"; "cp"; "/proj/backup.tar.gz"; ":/backup.tar.gz"]].
Proof. repeat split. Qed.

(** C2 (the code departs from the claim).  The claim: a file whose
    extension is in the denylist, [.md], [.tar.gz], [.gitignore] or
    [.DS_Store] for instance, is never a candidate and never copied.  The
    names [.gitignore] and [backup.tar.gz] end in entries of the denylist,
    yet in the project of [ignore_world] a forced upload copies both, and
    an unforced one does as well since they are newer than the marker;
    only [notes.md], whose pathlib suffix is the entry [.md], is left
    out. *)
Theorem C2_denylisted_names_are_copied :
  In ".gitignore" IGNORED_SUFFIXES
  /\ In ".tar.gz" IGNORED_SUFFIXES
  /\ map spec_denylisted [".gitignore"; "backup.tar.gz"; "notes.md"] = [true; true; true]
  /\ map (fun nm => mem (suffix_of_name nm) IGNORED_SUFFIXES)
       [".gitignore"; "backup.tar.gz"; "notes.md"]
     = [false; false; true]
  /\ commands (log (snd (upload_path dev_ok ["proj"] true ignore_world)))
     = [["mpremote"; "fs"; "mkdir"; ":/."];
        ["mpremote"; "fs"; "cp"; "/proj/a.py"; ":/a.py"];
        ["mpremote"; "fs"; "cp"; "/proj/.gitignore"; ":/.gitignore"];
        ["mpremote"; "fs"; "cp"; "/proj/backup.tar.gz"; ":/backup.tar.gz"];
        ["mpremote"; "fs"; "cp"; "/proj/stale.py"; ":/stale.py"]]
  /\ In ["mpremote"; "fs"; "cp"; "/proj/.gitignore"; ":/.gitignore"]
       (commands (log (snd (upload_path dev_ok ["proj"] false ignore_world))))
  /\ In ["mpremote"; "fs"; "cp"; "/proj/backup.tar.gz"; ":/backup.tar.gz"]
       (commands (log (snd (upload_path dev_ok ["proj"] false ignore_world)))).
Proof.
  repeat split.
  - unfold IGNORED_SUFFIXES. repeat (try (left; reflexivity); right).
  - unfold IGNORED_SUFFIXES. repeat (try (left; reflexivity); right).
  - vm_compute. right. right. left. reflexivity.
  - vm_compute. right. right. right. left. reflexivity.
Qed.

(** C3 (the code departs from the claim).  The claim: the directories
    requested are exactly the distinct relative parent directories of the
    candidates.  In the example of the specification ([a.py] and
    [sub/b.py] new, [old.md] denylisted) the one parent directory is
    [sub]; the run requests [:/.] as well, before [:/sub]: the relative
    folder of [a.py] is written "." and passes the test
    [if relative_folder:], which was to skip the files at the top. *)
Theorem C3_root_folder_is_requested :
  map fst (scan false 5%Z (Dir proj_entries)) = [["a.py"]; ["sub"; "b.py"]]
  /\ spec_parent_folders (scan false 5%Z (Dir proj_entries)) = ["sub"]
  /\ map relative_folder (scan false 5%Z (Dir proj_entries)) = ["."; "sub"]
  /\ commands (log (snd (upload_path dev_ok ["proj"] false proj_world)))
     = [["mpremote"; "fs"; "mkdir"; ":/."];
        ["mpremote"; "fs"; "mkdir"; ":/sub"];
        ["mpremote"; "fs"; "cp"; "/proj/a.py"; ":/a.py"];
        ["mpremote"; "fs"; "cp"; "/proj/sub/b.py"; ":/sub/b.py"]].
Proof. repeat split. Qed.

(** C4.  With an empty candidate set the upload returns normally after
    reporting that nothing was modified: it runs no command, writes no
    marker and leaves the local tree, so the marker, as it was. *)
Theorem C4_nothing_to_do
  (dev : device) (path : parts) (force : bool) (es : list (string * node)) (T : time)
  (w : world) :
  lookup path (fs w) = Some (Dir es) ->
  persisted_marker (fs w) path T ->
  scan force T (Dir es) = [] ->
  exists evs,
    upload_path dev path force w = (Ret tt, logged w evs)
    /\ fs (logged w evs) = fs w
    /\ commands evs = []
    /\ (forall p t, ~ In (MarkerWrite p t) evs)
    /\ printed evs
       = [Print ("Scanning for modified files in '" ++ abs_str path ++ "'..." ++ nl);
          Print "No files were modified since the last upload."].
Proof.
  intros Hl Hm Hs.
  destruct (upload_path_empty dev path force w es T Hl Hm Hs) as [evs [Hrun [Hc [Hp He]]]].
  exists evs. split; [exact Hrun |]. split; [reflexivity |]. auto.
Qed.

(** C5.  After an upload with candidates that returns normally, the
    marker file holds the time of the clock; when the clock is past the
    old marker and not before the modification time of any candidate, the
    new marker is strictly greater than the old one and at least the
    modification time of every uploaded file. *)
Theorem C5_marker_advances
  (dev : device) (path : parts) (force : bool) (es : list (string * node)) (T : time)
  (w w' : world) :
  lookup path (fs w) = Some (Dir es) ->
  persisted_marker (fs w) path T ->
  scan force T (Dir es) <> [] ->
  upload_path dev path force w = (Ret tt, w') ->
  (T < clock w)%Z ->
  (forall rel m c, In (rel, File m c) (scan force T (Dir es)) -> (m <= clock w)%Z) ->
  exists T',
    lookup (path ++ [TIMESTAMP_FILE_NAME]) (fs w') = Some (File T' (Some T'))
    /\ persisted_marker (fs w') path T'
    /\ T' = clock w
    /\ (T < T')%Z
    /\ (forall rel m c, In (rel, File m c) (scan force T (Dir es)) -> (m <= T')%Z).
Proof.
  intros Hl Hm Hne Hrun Hclock Hmt.
  destruct (upload_path_nonempty dev path force w es T Hl Hm Hne)
    as [k [evs [r' [fs' [Hrun' [_ [_ Hr]]]]]]].
  rewrite Hrun in Hrun'. inversion Hrun'; subst.
  destruct Hr as [[_ [_ Hfs]] | [Hr _]]; [| discriminate].
  assert (Hlk : lookup (path ++ [TIMESTAMP_FILE_NAME]) fs'
                = Some (File (clock w) (Some (clock w)))).
  { subst fs'. eapply lookup_write_entry. exact Hl. }
  exists (clock w). simpl. split; [exact Hlk |]. split.
  - unfold persisted_marker. rewrite Hlk. reflexivity.
  - auto.
Qed.

(** C6.  When the root path names no directory, the upload prints one
    diagnostic and ends with [SystemExit(1)], a non-zero exit status: no
    command is run, the marker file is neither probed, read nor written,
    and the local tree is as it was. *)
Theorem C6_missing_root
  (dev : device) (path : parts) (force : bool) (w : world) :
  is_dir (lookup path (fs w)) = false ->
  exists evs,
    upload_path dev path force w = (SystemExit 1, logged w evs)
    /\ exit_status (fst (upload_path dev path force w)) <> 0%Z
    /\ evs = [Print ("Error: Directory not found at " ++ abs_str path)]
    /\ fs (logged w evs) = fs w
    /\ commands evs = []
    /\ filter is_marker_event evs = [].
Proof.
  intro Hd. eexists. rewrite (upload_path_not_dir dev path force w Hd).
  split; [reflexivity |]. split; [discriminate |]. repeat split.
Qed.

(** C10.  The marker file [last_upload_time.txt] at the top of the root
    has the suffix [.txt], which is in the denylist: it is in no candidate
    set and no run of the upload requests its copy. *)
Theorem C10_marker_file_not_uploaded
  (dev : device) (path : parts) (force : bool) (w : world) :
  suffix [TIMESTAMP_FILE_NAME] = ".txt"
  /\ In (suffix [TIMESTAMP_FILE_NAME]) IGNORED_SUFFIXES
  /\ (forall T root, ~ In [TIMESTAMP_FILE_NAME] (map fst (scan force T root)))
  /\ exists files,
       cp_requests (log (snd (upload_path dev path force w)))
       = cp_requests (log w) ++ map (cp_cmd path) files
       /\ ~ In [TIMESTAMP_FILE_NAME] (map fst files).
Proof.
  assert (Hs : In (suffix [TIMESTAMP_FILE_NAME]) IGNORED_SUFFIXES) by (simpl; auto).
  split; [reflexivity |]. split; [exact Hs |]. split.
  - intros T root. now apply denylisted_not_scanned.
  - now apply denylisted_not_copied.
Qed.

(** ** The runs of [list_all_files] *)

Lemma print_files_loop (indent : nat) (files : list string) :
  forall w,
    for_each files (fun f => let space := spaces indent in print (space ++ f)) w
    = (Ret tt, logged w (map (fun f => Print (spaces indent ++ f)) files)).
Proof.
  induction files as [| f files IH]; intro w; simpl.
  - rewrite logged_nil. reflexivity.
  - unfold bind at 1, print at 1, emit at 1. rewrite IH.
    unfold logged. simpl. rewrite <- app_assoc. reflexivity.
Qed.

Lemma print_directory_eq (base_path : string) (files : list string) (w : world) :
  print_directory base_path files w
  = (Ret tt,
     logged w
       (Print (nl ++ rstrip_slash base_path ++ "/")
        :: map (fun f => Print (spaces (String.length (rstrip_slash base_path) + 1) ++ f)) files)).
Proof.
  unfold print_directory, bind at 1, print at 1, emit at 1.
  rewrite print_files_loop. unfold logged. simpl. rewrite <- app_assoc. reflexivity.
Qed.

(** The entry loop, from any pair of lists it starts with. *)
Lemma classify_loop (entries : list string) :
  forall files subdirs,
    fold_left
      (fun acc entry =>
         let parts := split (strip entry) in
         match parts with
         | [] => acc
         | _ =>
             let name := last parts EmptyString in
             if endswith_slash name
             then (fst acc, snd acc ++ [rstrip_slash name])
             else (fst acc ++ [name], snd acc)
         end)
      entries (files, subdirs)
    = (files ++ filter (fun nm => negb (endswith_slash nm)) (flat_map line_names entries),
       subdirs ++ map rstrip_slash (filter endswith_slash (flat_map line_names entries))).
Proof.
  induction entries as [| entry entries IH]; intros files subdirs; simpl.
  - rewrite !app_nil_r. reflexivity.
  - unfold line_names at 1 3. destruct (split (strip entry)) as [| t ts] eqn:E.
    + simpl. apply IH.
    + set (name := last (t :: ts) EmptyString).
      cbn [app filter]. destruct (endswith_slash name) eqn:Es; cbn [negb fst snd map];
        rewrite IH, <- app_assoc; reflexivity.
Qed.

(** The loop computes the files and subdirectories the specification
    describes. *)
Lemma classify_spec (lines : list string) :
  classify (tl lines) = (spec_files lines, spec_subdirs lines).
Proof.
  unfold classify, spec_files, spec_subdirs, spec_entry_names.
  rewrite classify_loop. reflexivity.
Qed.

Section ListingRuns.

Variable dev : device.

(** One call of [list_all_files], case by case. *)
Lemma list_all_files_eq (fuel : nat) (base_path : string) (w : world) :
  list_all_files dev (S fuel) base_path w =
  match dev (commands (log w)) (ls_cmd base_path) with
  | DevFail rc =>
      Some (Ret tt,
            logged w [Run (ls_cmd base_path) (DevFail rc); PrintToolError (ls_cmd base_path) rc])
  | DevOk out =>
      let lines := splitlines (strip (strip out)) in
      if List.length lines <? 2
      then Some (Ret tt, logged w [Run (ls_cmd base_path) (DevOk out)])
      else
        for_each_fuel (snd (classify (tl lines)))
          (fun subdir => list_all_files dev fuel (sub_path base_path subdir))
          (logged w
             (Run (ls_cmd base_path) (DevOk out)
              :: Print (nl ++ rstrip_slash base_path ++ "/")
              :: map (fun f => Print (spaces (String.length (rstrip_slash base_path) + 1) ++ f))
                   (fst (classify (tl lines)))))
  end.
Proof.
  cbn [list_all_files]. rewrite run_mpremote_eq. cbv zeta.
  change ("mpremote" :: ["fs"; "ls"; base_path]) with (ls_cmd base_path).
  destruct (dev (commands (log w)) (ls_cmd base_path)) as [out | rc]; [| reflexivity].
  destruct (List.length (splitlines (strip (strip out))) <? 2); [reflexivity |].
  rewrite print_directory_eq, logged_logged. reflexivity.
Qed.

(** A loop whose every round comes back comes back. *)
Lemma for_each_fuel_returns {A} (body : A -> world -> option (result unit * world)) (l : list A) :
  (forall x, In x l -> forall w, exists w', body x w = Some (Ret tt, w')) ->
  forall w, exists w', for_each_fuel l body w = Some (Ret tt, w').
Proof.
  induction l as [| x l IH]; intros Hbody w; simpl.
  - eauto.
  - destruct (Hbody x (or_introl eq_refl) w) as [w1 Hx]. rewrite Hx.
    apply IH. intros y Hy. apply Hbody. right. exact Hy.
Qed.

Lemma listing_returns (d : nat) :
  forall fuel base_path w,
    tree_below dev d base_path ->
    d <= fuel ->
    exists w', list_all_files dev fuel base_path w = Some (Ret tt, w').
Proof.
  induction d as [| d IH]; intros fuel base_path w Htree Hfuel; [contradiction |].
  destruct fuel as [| fuel]; [lia |].
  rewrite list_all_files_eq. cbn [tree_below] in Htree.
  specialize (Htree (commands (log w))).
  destruct (dev (commands (log w)) (ls_cmd base_path)) as [out | rc]; [| eauto].
  cbn [subdirs_of_answer] in Htree. cbv zeta in *.
  destruct (List.length (splitlines (strip (strip out))) <? 2); [eauto |].
  apply for_each_fuel_returns. intros s Hs w0.
  apply IH; [apply Htree; exact Hs | lia].
Qed.

End ListingRuns.

(** A subdirectory that is reported under its parent's own path is
    listed again and again: the calls nest deeper than any depth
    allowed. *)
Lemma self_reference_never_returns (fuel : nat) :
  forall w, list_all_files dev_self_reference fuel ":/" w = None.
Proof.
  induction fuel as [| fuel IH]; intro w; [reflexivity |].
  rewrite list_all_files_eq.
  change (dev_self_reference (commands (log w)) (ls_cmd ":/"))
    with (DevOk ("ls :/" ++ nl ++ "           0 /" ++ nl)).
  cbv beta iota zeta.
  change (List.length (splitlines (strip (strip ("ls :/" ++ nl ++ "           0 /" ++ nl)))) <? 2)
    with false.
  change (snd (classify (tl (splitlines (strip (strip ("ls :/" ++ nl ++ "           0 /" ++ nl)))))))
    with [EmptyString].
  cbn [for_each_fuel]. change (sub_path ":/" EmptyString) with ":/". rewrite IH. reflexivity.
Qed.

(** ** The claims about [list_all_files] *)

(** C7, as amended.  When the listing request for a path fails, the call
    for that path prints the diagnostic of the failed command and nothing
    else (no directory line, no entry), and returns normally; the loop
    over the subdirectories of its parent goes on with the next
    subdirectory. *)
Theorem C7_failed_listing_skips_branch (dev : device) (fuel : nat) (w : world) :
  (forall base_path rc,
      dev (commands (log w)) (ls_cmd base_path) = DevFail rc ->
      list_all_files dev (S fuel) base_path w
      = Some (Ret tt,
              logged w [Run (ls_cmd base_path) (DevFail rc);
                        PrintToolError (ls_cmd base_path) rc]))
  /\ (forall base subdir rest rc,
         dev (commands (log w)) (ls_cmd (sub_path base subdir)) = DevFail rc ->
         for_each_fuel (subdir :: rest)
           (fun s => list_all_files dev (S fuel) (sub_path base s)) w
         = for_each_fuel rest
             (fun s => list_all_files dev (S fuel) (sub_path base s))
             (logged w [Run (ls_cmd (sub_path base subdir)) (DevFail rc);
                        PrintToolError (ls_cmd (sub_path base subdir)) rc])).
Proof.
  split.
  - intros base_path rc Hfail. rewrite list_all_files_eq, Hfail. reflexivity.
  - intros base subdir rest rc Hfail. cbn [for_each_fuel].
    rewrite list_all_files_eq, Hfail. reflexivity.
Qed.

(** C8, as amended.  For a listing that succeeds with at least two lines,
    the call drops the first line, takes the last token of each other line
    as a name, prints the directory path and one indented line per file
    (the names without a final separator), then calls itself for each
    subdirectory (the names with a final separator, stripped of it) in the
    order of the lines.  A listing of fewer than two lines prints nothing
    and ends the branch.  On the two-level device the output is the root
    line, the root file, the line of the subdirectory and its file. *)
Theorem C8_listing_step (dev : device) (fuel : nat) (base_path : string) (w : world) (out : string) :
  dev (commands (log w)) (ls_cmd base_path) = DevOk out ->
  let lines := splitlines (strip (strip out)) in
  (2 <= List.length lines ->
   list_all_files dev (S fuel) base_path w
   = for_each_fuel (spec_subdirs lines)
       (fun subdir => list_all_files dev fuel (rstrip_slash base_path ++ "/" ++ subdir)%string)
       (logged w
          (Run (ls_cmd base_path) (DevOk out)
           :: Print (nl ++ rstrip_slash base_path ++ "/")
           :: map (fun f => Print (spaces (String.length (rstrip_slash base_path) + 1) ++ f))
                (spec_files lines))))
  /\ (List.length lines < 2 ->
      list_all_files dev (S fuel) base_path w
      = Some (Ret tt, logged w [Run (ls_cmd base_path) (DevOk out)]))
  /\ option_map (fun rw => (fst rw, printed (log (snd rw))))
       (list_all_files dev_two_level 2 ":/" empty_world)
     = Some (Ret tt,
             [Print (nl ++ ":/"); Print "  main.py";
              Print (nl ++ ":/lib/"); Print "      util.py"]).
Proof.
  intros Hok lines. rewrite list_all_files_eq, Hok. cbv zeta. fold lines.
  split; [| split].
  - intro Hlen. apply Nat.ltb_ge in Hlen. rewrite Hlen, classify_spec. reflexivity.
  - intro Hlen. apply Nat.ltb_lt in Hlen. rewrite Hlen. reflexivity.
  - vm_compute. reflexivity.
Qed.

(** C9.  When the answers of the device describe below [base_path] a tree
    of fewer than [d] nested levels, every recursive call being for a path
    one level further down, the listing of [base_path] comes back, and
    returns normally, as soon as it is given fuel for [d] nested calls. *)
Theorem C9_listing_terminates (dev : device) (d fuel : nat) (base_path : string) (w : world) :
  tree_below dev d base_path ->
  d <= fuel ->
  exists w', list_all_files dev fuel base_path w = Some (Ret tt, w').
Proof.
  intros Htree Hfuel. exact (listing_returns dev d fuel base_path w Htree Hfuel).
Qed.

(** ** The claims at concrete inputs *)

(** The example of the specification: [a.py] and [sub/b.py] are new,
    [old.md] is denylisted.  The two copies follow two directory requests,
    one of them for ".", the parent folder of [a.py]. *)
Example upload_example :
  commands (log (snd (upload_path dev_ok ["proj"] false proj_world)))
  = [["mpremote"; "fs"; "mkdir"; ":/."];
     ["mpremote"; "fs"; "mkdir"; ":/sub"];
     ["mpremote"; "fs"; "cp"; "/proj/a.py"; ":/a.py"];
     ["mpremote"; "fs"; "cp"; "/proj/sub/b.py"; ":/sub/b.py"]].
Proof. reflexivity. Qed.

(** The suffix test is pathlib's: only the last dot of the name counts,
    and not when it is the first character.  Of these names only the
    first two have a suffix of the denylist. *)
Example suffix_examples :
  map (fun nm => mem (suffix_of_name nm) IGNORED_SUFFIXES)
    ["notes.md"; "last_upload_time.txt"; "main.py"; "backup.tar.gz"; ".gitignore"; ".DS_Store"]
  = [true; true; false; false; false; false].
Proof. reflexivity. Qed.

Example str_examples :
  strip ("  ls :/ " ++ nl) = "ls :/"
  /\ splitlines ("a" ++ nl ++ nl ++ "b" ++ String CR nl ++ "c" ++ nl) = ["a"; EmptyString; "b"; "c"]
  /\ split "         139 boot.py " = ["139"; "boot.py"]
  /\ map rstrip_slash [":/"; ":/lib"; "lib//"; "/"] = [":"; ":/lib"; "lib"; EmptyString].
Proof. repeat split. Qed.

Lemma C4_witness :
  exists evs,
    upload_path dev_ok ["proj"] false idle_world = (Ret tt, logged idle_world evs)
    /\ fs (logged idle_world evs) = fs idle_world
    /\ commands evs = []
    /\ (forall p t, ~ In (MarkerWrite p t) evs)
    /\ printed evs
       = [Print ("Scanning for modified files in '" ++ abs_str ["proj"] ++ "'..." ++ nl);
          Print "No files were modified since the last upload."].
Proof.
  apply (C4_nothing_to_do dev_ok ["proj"] false idle_entries 50%Z idle_world);
    reflexivity.
Defined.

Lemma C5_witness :
  exists T',
    lookup (["proj"] ++ [TIMESTAMP_FILE_NAME])
      (fs (snd (upload_path dev_ok ["proj"] false proj_world)))
    = Some (File T' (Some T'))
    /\ persisted_marker (fs (snd (upload_path dev_ok ["proj"] false proj_world))) ["proj"] T'
    /\ T' = clock proj_world
    /\ (5 < T')%Z
    /\ (forall rel m c, In (rel, File m c) (scan false 5%Z (Dir proj_entries)) -> (m <= T')%Z).
Proof.
  apply (C5_marker_advances dev_ok ["proj"] false proj_entries 5%Z proj_world
           (snd (upload_path dev_ok ["proj"] false proj_world))).
  - reflexivity.
  - reflexivity.
  - vm_compute. discriminate.
  - reflexivity.
  - reflexivity.
  - intros rel m c H. vm_compute in H.
    destruct H as [H | [H | []]]; inversion H; subst; vm_compute; discriminate.
Defined.

Lemma C6_witness :
  exists evs,
    upload_path dev_ok ["missing"] false proj_world = (SystemExit 1, logged proj_world evs)
    /\ exit_status (fst (upload_path dev_ok ["missing"] false proj_world)) <> 0%Z
    /\ evs = [Print ("Error: Directory not found at " ++ abs_str ["missing"])]
    /\ fs (logged proj_world evs) = fs proj_world
    /\ commands evs = []
    /\ filter is_marker_event evs = [].
Proof.
  apply (C6_missing_root dev_ok ["missing"] false proj_world). reflexivity.
Defined.

Lemma C7_witness :
  list_all_files dev_down 1 ":/" empty_world
  = Some (Ret tt,
          logged empty_world [Run (ls_cmd ":/") (DevFail 1);
                              PrintToolError (ls_cmd ":/") 1]).
Proof.
  destruct (C7_failed_listing_skips_branch dev_down 0 empty_world) as [H _].
  apply (H ":/" 1%Z). reflexivity.
Defined.

Lemma C8_witness :
  list_all_files dev_two_level 2 ":/lib" empty_world
  = for_each_fuel []
      (fun subdir => list_all_files dev_two_level 1 (":/lib" ++ "/" ++ subdir)%string)
      (logged empty_world
         [Run (ls_cmd ":/lib") (DevOk ("ls :/lib" ++ nl ++ "          12 util.py" ++ nl));
          Print (nl ++ ":/lib/"); Print "      util.py"]).
Proof.
  destruct (C8_listing_step dev_two_level 1 ":/lib" empty_world
              ("ls :/lib" ++ nl ++ "          12 util.py" ++ nl) eq_refl) as [H _].
  apply H. vm_compute. repeat constructor.
Defined.

Lemma C9_witness :
  exists w', list_all_files dev_two_level 2 ":/" empty_world = Some (Ret tt, w').
Proof.
  apply (C9_listing_terminates dev_two_level 2 2 ":/" empty_world).
  - intros h s Hs. vm_compute in Hs. destruct Hs as [Hs | []]. subst s.
    intros h' s' Hs'. vm_compute in Hs'. destruct Hs'.
  - apply le_n.
Defined.

(** C7 as stated fails: the call for a path whose listing fails does
    print, namely the diagnostic of [run_mpremote]. *)
Lemma C7_counterexample :
  dev_down (commands (log empty_world)) (ls_cmd ":/") = DevFail 1
  /\ exists w',
       list_all_files dev_down 1 ":/" empty_world = Some (Ret tt, w')
       /\ printed (log w') = [PrintToolError (ls_cmd ":/") 1]
       /\ printed (log w') <> printed (log empty_world).
Proof.
  split; [reflexivity |]. eexists. split; [reflexivity |].
  split; [reflexivity | discriminate].
Qed.

(** C8 as stated fails: the listing of an empty directory, which is the
    header line alone, succeeds, and the directory path is not printed. *)
Lemma C8_counterexample :
  dev_header_only (commands (log empty_world)) (ls_cmd ":/") = DevOk ("ls :/" ++ nl)
  /\ exists w',
       list_all_files dev_header_only 1 ":/" empty_world = Some (Ret tt, w')
       /\ printed (log w') = []
       /\ ~ In (Print (nl ++ rstrip_slash ":/" ++ "/")) (log w').
Proof.
  split; [reflexivity |]. eexists. split; [reflexivity |].
  split; [reflexivity |]. vm_compute. intros [H | []]. discriminate.
Qed.

(** ** Further properties: the marker file in the local tree *)

Lemma get_set_entry_other (k nm : string) (v : node) (es : list (string * node)) :
  k <> nm -> get_entry k (set_entry nm v es) = get_entry k es.
Proof.
  intro Hne. unfold get_entry. induction es as [| [k0 x] es IH]; simpl.
  - destruct (String.eqb_spec nm k); [congruence | reflexivity].
  - destruct (String.eqb_spec k0 nm) as [-> | Hk0]; simpl.
    + destruct (String.eqb_spec nm k); [congruence | reflexivity].
    + destruct (String.eqb_spec k0 k); [reflexivity | exact IH].
Qed.

(** After a write into the directory at [p], that directory holds the
    entries it had, with the one entry set. *)
Lemma lookup_write_entry_root (p : parts) (nm : string) (v : node) :
  forall n es,
    lookup p n = Some (Dir es) ->
    lookup p (write_entry p nm v n) = Some (Dir (set_entry nm v es)).
Proof.
  induction p as [| c p IH]; intros n es Hl; simpl in Hl.
  - inversion Hl; subst. reflexivity.
  - destruct n as [ | es0 | ]; try discriminate.
    destruct (get_entry c es0) as [x |] eqn:E; try discriminate.
    cbn [write_entry]. rewrite E. cbn [lookup]. rewrite get_set_entry.
    apply IH. exact Hl.
Qed.

(** A write leaves every path alone that neither leads to the written
    file nor continues it. *)
Lemma lookup_write_entry_other (p : parts) (nm : string) (v : node) :
  forall q n,
    ~ prefix_of q (p ++ [nm]) ->
    ~ prefix_of (p ++ [nm]) q ->
    lookup q (write_entry p nm v n) = lookup q n.
Proof.
  induction p as [| c p IH]; intros q n Hq Hp.
  - destruct q as [| k rest]; [exfalso; apply Hq; exists [nm]; reflexivity |].
    assert (Hk : k <> nm).
    { intro Heq. subst k. apply Hp. exists rest. reflexivity. }
    destruct n as [ | es | ]; try reflexivity.
    cbn [write_entry lookup]. rewrite get_set_entry_other by exact Hk. reflexivity.
  - destruct q as [| k rest]; [exfalso; apply Hq; eexists; reflexivity |].
    destruct n as [ | es | ]; try reflexivity.
    cbn [write_entry]. destruct (get_entry c es) as [x |] eqn:E; [| reflexivity].
    cbn [lookup]. destruct (String.eqb_spec k c) as [-> | Hk].
    + rewrite get_set_entry, E. apply IH.
      * intros [d Hd]. apply Hq. exists d. simpl. rewrite Hd. reflexivity.
      * intros [d Hd]. apply Hp. exists d. simpl. rewrite Hd. reflexivity.
    + rewrite get_set_entry_other by exact Hk. reflexivity.
Qed.

(** Setting a denylisted regular file at the top of a directory, in place
    of a regular file or of nothing, leaves every scan of the directory as
    it was. *)
Lemma scan_set_entry (force : bool) (T : time) (nm : string) (m : time) (c : option time)
  (es : list (string * node)) :
  In (suffix_of_name nm) IGNORED_SUFFIXES ->
  (forall x, get_entry nm es = Some x -> is_file x = true) ->
  scan force T (Dir (set_entry nm (File m c) es)) = scan force T (Dir es).
Proof.
  intros Hs Hfile. unfold scan. cbn [rglob]. rewrite !filter_app.
  assert (Hdrop : forall x, wanted force T ([] ++ [nm], x) = false).
  { intro x. unfold wanted. cbn [fst snd app]. destruct x; try reflexivity.
    unfold suffix, name. cbn [last].
    apply mem_In in Hs. rewrite Hs. reflexivity. }
  assert (Htop :
    filter (wanted force T) (map (fun e => ([] ++ [fst e], snd e)) (set_entry nm (File m c) es))
    = filter (wanted force T) (map (fun e => ([] ++ [fst e], snd e)) es)
    /\ flat_map (fun e => rglob ([] ++ [fst e]) (snd e)) (set_entry nm (File m c) es)
       = flat_map (fun e => rglob ([] ++ [fst e]) (snd e)) es).
  { revert Hfile. unfold get_entry.
    induction es as [| [k x] es IH]; intro Hfile.
    - cbn [set_entry map flat_map filter fst snd]. rewrite Hdrop. split; reflexivity.
    - cbn [set_entry]. cbn [find fst] in Hfile.
      destruct (String.eqb_spec k nm) as [-> | Hk].
      + assert (Hx : is_file x = true) by (apply Hfile; reflexivity).
        destruct x as [m0 c0 | |]; try discriminate.
        cbn [map flat_map filter fst snd rglob]. rewrite !Hdrop. split; reflexivity.
      + destruct (IH Hfile) as [IH1 IH2].
        cbn [map flat_map filter fst snd]. rewrite IH1, IH2. split; reflexivity. }
  destruct Htop as [H1 H2]. f_equal; [exact H1 | f_equal; exact H2].
Qed.

(** ** Further properties: how the copy loop ends *)

Lemma failed_cp_commands (l : list event) :
  existsb failed_cp l = true -> existsb is_cp (commands l) = true.
Proof.
  induction l as [| e l IH]; simpl; [discriminate |].
  destruct e as [t | c rc | c res | q | q | q t]; simpl; try exact IH.
  destruct res as [out | rc]; simpl.
  - intro H. rewrite (IH H). apply orb_true_r.
  - intro H. apply orb_true_iff in H. destruct H as [H | H].
    + rewrite H. reflexivity.
    + rewrite (IH H). apply orb_true_r.
Qed.

Lemma quiet_no_failed_cp (l : list event) : commands l = [] -> existsb failed_cp l = false.
Proof.
  intro Hc. destruct (existsb failed_cp l) eqn:E; [| reflexivity].
  apply failed_cp_commands in E. rewrite Hc in E. discriminate.
Qed.

Lemma mkdir_no_failed_cp (l : list event) (folders : list string) :
  commands l = map mkdir_cmd folders -> existsb failed_cp l = false.
Proof.
  intro Hc. destruct (existsb failed_cp l) eqn:E; [| reflexivity].
  apply failed_cp_commands in E. rewrite Hc in E.
  clear - E. induction folders; simpl in E; [discriminate | auto].
Qed.

Section CopyOutcome.

Variable dev : device.

(** The copy loop in full: either every copy is accepted, or the loop
    ends at the first copy the device refuses, after the lines of the
    copies before it and with the diagnostic of the refused one. *)
Lemma cp_loop_outcome (path : parts) (files : list (parts * node)) :
  forall w, exists j evs r,
    for_each files
      (fun file =>
         Effects.bind (run_mpremote dev (cp_args path file) false true)
           (fun _ => print ("Uploaded: " ++ as_posix (fst file)))) w
    = (r, logged w evs)
    /\ ((r = Ret tt
         /\ commands evs = map (cp_cmd path) files
         /\ printed evs = map uploaded_line files
         /\ existsb failed_cp evs = false)
        \/ (exists f rc h,
              r = SystemExit 1
              /\ nth_error files j = Some f
              /\ dev h (cp_cmd path f) = DevFail rc
              /\ commands evs = map (cp_cmd path) (firstn j files) ++ [cp_cmd path f]
              /\ printed evs
                 = map uploaded_line (firstn j files) ++ [PrintToolError (cp_cmd path f) rc]
              /\ existsb failed_cp evs = true))
    /\ filter is_marker_event evs = [].
Proof.
  induction files as [| file files IH]; intro w.
  - exists 0, [], (Ret tt). cbn [for_each]. unfold ret. rewrite logged_nil.
    split; [reflexivity |]. split; [left; repeat split | reflexivity].
  - cbn [for_each]. unfold bind at 1. unfold bind at 1. rewrite run_mpremote_eq. cbv zeta.
    change ("mpremote" :: cp_args path file) with (cp_cmd path file).
    destruct (dev (commands (log w)) (cp_cmd path file)) as [out | rc] eqn:Hdev.
    + unfold print at 1, emit at 1. cbn [fs clock log logged].
      set (w1 := {| fs := fs w; clock := clock w; log := _ |}).
      destruct (IH w1) as [j [evs [r [Hrun [Hcase Hm]]]]].
      exists (S j),
        (Run (cp_cmd path file) (DevOk out) :: uploaded_line file :: evs), r.
      split; [| split].
      * rewrite Hrun. subst w1. unfold logged, uploaded_line. cbn [fs clock log].
        rewrite <- !app_assoc. reflexivity.
      * destruct Hcase as [[Hr [Hc [Hp Hf]]] | [f [rc [h [Hr [Hn [Hd [Hc [Hp Hf]]]]]]]]].
        -- left. repeat split; [exact Hr | | | ].
           ++ unfold commands in *. cbn [flat_map app map]. rewrite Hc. reflexivity.
           ++ unfold printed in *. cbn [filter is_output uploaded_line map].
              rewrite Hp. reflexivity.
           ++ cbn [existsb failed_cp orb uploaded_line]. exact Hf.
        -- right. exists f, rc, h. repeat split; [exact Hr | exact Hn | exact Hd | | | ].
           ++ unfold commands in *. cbn [flat_map app map firstn]. rewrite Hc. reflexivity.
           ++ unfold printed in *. cbn [filter is_output uploaded_line map firstn app].
              rewrite Hp. reflexivity.
           ++ cbn [existsb failed_cp orb uploaded_line]. exact Hf.
      * cbn [filter is_marker_event uploaded_line]. exact Hm.
    + exists 0, [Run (cp_cmd path file) (DevFail rc); PrintToolError (cp_cmd path file) rc],
        (SystemExit 1).
      split; [reflexivity |]. split; [| reflexivity].
      right. exists file, rc, (commands (log w)). repeat split. exact Hdev.
Qed.

(** The run with candidates in full. *)
Lemma upload_path_outcome (path : parts) (force : bool) (w : world) es T :
  lookup path (fs w) = Some (Dir es) ->
  persisted_marker (fs w) path T ->
  scan force T (Dir es) <> [] ->
  exists j evs r fs',
    upload_path dev path force w = (r, mkWorld fs' (clock w) (log w ++ evs))
    /\ ((r = Ret tt
         /\ fs' = write_entry path TIMESTAMP_FILE_NAME (File (clock w) (Some (clock w))) (fs w)
         /\ printed evs
            = Print ("Scanning for modified files in '" ++ abs_str path ++ "'..." ++ nl)
              :: map uploaded_line (scan force T (Dir es))
              ++ [Print (nl ++ "Upload complete.")]
         /\ existsb failed_cp evs = false)
        \/ (exists f rc h,
              r = SystemExit 1
              /\ fs' = fs w
              /\ nth_error (scan force T (Dir es)) j = Some f
              /\ dev h (cp_cmd path f) = DevFail rc
              /\ cp_requests evs
                 = map (cp_cmd path) (firstn j (scan force T (Dir es))) ++ [cp_cmd path f]
              /\ printed evs
                 = Print ("Scanning for modified files in '" ++ abs_str path ++ "'..." ++ nl)
                   :: map uploaded_line (firstn j (scan force T (Dir es)))
                   ++ [PrintToolError (cp_cmd path f) rc]
              /\ existsb failed_cp evs = true)).
Proof.
  intros Hl Hm Hs. unfold upload_path, bind at 1, get_fs. rewrite Hl.
  destruct (get_last_upload_time_run path w) as [evs0 [r0 [Hrun0 [Hc0 [Hp0 [_ Hret]]]]]].
  unfold bind at 1. rewrite Hrun0, (Hret T Hm).
  unfold bind at 1, print at 1, emit at 1.
  set (w1 := {| fs := _; clock := _; log := _ |}).
  destruct (scan force T (Dir es)) as [| f0 files] eqn:Hscan; [congruence |].
  set (cands := f0 :: files) in *.
  destruct (mkdir_loop dev (sorted (folders_to_create cands)) w1) as [evs1 [Hrun1 [Hc1 [Hp1 _]]]].
  unfold bind at 1. rewrite Hrun1.
  destruct (cp_loop_outcome path cands (logged w1 evs1)) as [j [evs2 [r [Hrun2 [Hcase _]]]]].
  unfold bind at 1. rewrite Hrun2.
  pose proof (quiet_no_failed_cp evs0 Hc0) as Hf0.
  pose proof (mkdir_no_failed_cp evs1 _ Hc1) as Hf1.
  destruct Hcase as [[Hr [Hc2 [Hp2 Hf2]]] | [f [rc [h [Hr [Hn [Hd [Hc2 [Hp2 Hf2]]]]]]]]]; subst r.
  - exists j,
      (evs0 ++ [Print ("Scanning for modified files in '" ++ abs_str path ++ "'..." ++ nl)]
       ++ evs1 ++ evs2
       ++ [MarkerWrite (path ++ [TIMESTAMP_FILE_NAME]) (clock w); Print (nl ++ "Upload complete.")]),
      (Ret tt),
      (write_entry path TIMESTAMP_FILE_NAME (File (clock w) (Some (clock w))) (fs w)).
    split.
    + unfold bind at 1, update_upload_time, bind at 1, time_time, bind at 1, emit at 1,
        bind at 1, get_fs.
      cbn [fs clock log logged w1].
      unfold persisted_marker in Hm.
      destruct (lookup (path ++ [TIMESTAMP_FILE_NAME]) (fs w)) as [[m [v |] | es' | ] |];
        try contradiction;
        unfold put_fs, print, emit; cbn [fs clock log];
        rewrite <- !app_assoc; reflexivity.
    + left. repeat split.
      * rewrite !printed_app, Hp0, Hp1, Hp2. reflexivity.
      * rewrite !existsb_app, Hf0, Hf1, Hf2. reflexivity.
  - exists j,
      (evs0 ++ [Print ("Scanning for modified files in '" ++ abs_str path ++ "'..." ++ nl)]
       ++ evs1 ++ evs2),
      (SystemExit 1), (fs w).
    split.
    + unfold w1, logged. cbn [fs clock log]. rewrite <- !app_assoc. reflexivity.
    + right. exists f, rc, h. repeat split; [exact Hn | exact Hd | | | ].
      * unfold cp_requests. rewrite !commands_app, Hc0, Hc1, Hc2. cbn [commands flat_map app].
        rewrite filter_app, filter_cp_mkdir, filter_app, filter_cp_cp. reflexivity.
      * rewrite !printed_app, Hp0, Hp1, Hp2. reflexivity.
      * rewrite !existsb_app, Hf0, Hf1, Hf2. reflexivity.
Qed.

End CopyOutcome.

(** ** Further properties of [upload_path] *)

Lemma upload_path_returned_copies
  (dev : device) (path : parts) (force : bool) (es : list (string * node)) (T : time)
  (w w' : world) :
  lookup path (fs w) = Some (Dir es) ->
  persisted_marker (fs w) path T ->
  upload_path dev path force w = (Ret tt, w') ->
  cp_requests (log w') = cp_requests (log w) ++ map (cp_cmd path) (scan force T (Dir es)).
Proof.
  intros Hl Hm Hrun.
  destruct (scan force T (Dir es)) as [| f0 fl] eqn:Hs.
  - destruct (upload_path_empty dev path force w es T Hl Hm Hs) as [evs [Hrun' [Hc _]]].
    rewrite Hrun in Hrun'. inversion Hrun'; subst. apply cp_requests_quiet. exact Hc.
  - assert (Hne : scan force T (Dir es) <> []) by (rewrite Hs; discriminate).
    destruct (upload_path_nonempty dev path force w es T Hl Hm Hne)
      as [k [evs [r' [fs' [Hrun' [Hc [Hk Hr]]]]]]].
    rewrite Hrun in Hrun'. inversion Hrun'; subst. cbn [log]. rewrite Hs in *.
    destruct Hr as [[_ [Hlen _]] | [Hr _]]; [| discriminate].
    rewrite cp_requests_app. f_equal. unfold cp_requests.
    rewrite Hc, filter_app, filter_cp_mkdir, filter_cp_cp, Hlen, firstn_all. reflexivity.
Qed.

(** X1.  With [force = true] the candidates are all the regular files
    below the root whose suffix is not in the denylist, whatever their
    modification time and whatever the marker; a run that returns has
    requested the copy of each of them, in order. *)
Theorem forced_upload_takes_every_file
  (dev : device) (path : parts) (es : list (string * node)) (T : time)
  (w w' : world) :
  lookup path (fs w) = Some (Dir es) ->
  persisted_marker (fs w) path T ->
  upload_path dev path true w = (Ret tt, w') ->
  (forall rel x,
      In (rel, x) (scan true T (Dir es)) <->
      under (Dir es) rel x /\ is_file x = true /\ ~ In (suffix rel) IGNORED_SUFFIXES)
  /\ (forall T', scan true T' (Dir es) = scan true T (Dir es))
  /\ cp_requests (log w') = cp_requests (log w) ++ map (cp_cmd path) (scan true T (Dir es)).
Proof.
  intros Hl Hm Hrun. split; [| split].
  - intros rel x. rewrite scan_spec. split.
    + intros [Hu [m [c [Hx [Hno _]]]]]. subst x. auto.
    + intros [Hu [Hf Hno]]. split; [exact Hu |].
      destruct x as [m c | |]; try discriminate. exists m, c. auto.
  - intro T'. unfold scan. apply filter_ext. intros [rel x].
    unfold wanted. cbn [fst snd]. destruct x; reflexivity.
  - exact (upload_path_returned_copies dev path true es T w w' Hl Hm Hrun).
Qed.

(** X2.  A later marker only removes candidates, and forcing only adds
    some: the candidates for a marker [T2] are among those for an earlier
    marker [T1], which are among those of a forced upload. *)
Theorem candidates_shrink_with_marker (root : node) (T1 T2 : time) :
  (T1 <= T2)%Z ->
  incl (scan false T2 root) (scan false T1 root)
  /\ incl (scan false T1 root) (scan true T2 root).
Proof.
  intro Hle. split; intros [rel x] Hin; apply scan_spec in Hin; apply scan_spec;
    destruct Hin as [Hu [m [c [Hx [Hno [Hf | Ht]]]]]]; try discriminate;
    (split; [exact Hu | exists m, c; repeat split; auto]).
  right. lia.
Qed.

(** X3.  A run of the upload ends either by returning or with
    [SystemExit(1)], the latter exactly when the device refused a copy.
    The refused copy is the last command of the run: the files after it
    are not requested, one line was printed for each file before it, the
    local tree and the marker are as they were. *)
Theorem failed_copy_is_fatal
  (dev : device) (path : parts) (force : bool) (es : list (string * node)) (T : time)
  (w w' : world) (r : result unit) :
  lookup path (fs w) = Some (Dir es) ->
  persisted_marker (fs w) path T ->
  upload_path dev path force w = (r, w') ->
  (r = Ret tt \/ r = SystemExit 1)
  /\ exists evs,
       log w' = log w ++ evs
       /\ (existsb failed_cp evs = true <-> r = SystemExit 1)
       /\ (r = SystemExit 1 ->
           exit_status r = 1%Z
           /\ fs w' = fs w
           /\ persisted_marker (fs w') path T
           /\ exists j f rc,
                nth_error (scan force T (Dir es)) j = Some f
                /\ cp_requests evs
                   = map (cp_cmd path) (firstn j (scan force T (Dir es))) ++ [cp_cmd path f]
                /\ printed evs
                   = Print ("Scanning for modified files in '" ++ abs_str path ++ "'..." ++ nl)
                     :: map uploaded_line (firstn j (scan force T (Dir es)))
                     ++ [PrintToolError (cp_cmd path f) rc]).
Proof.
  intros Hl Hm Hrun.
  destruct (scan force T (Dir es)) as [| f0 fl] eqn:Hs.
  - destruct (upload_path_empty dev path force w es T Hl Hm Hs) as [evs [Hrun' [Hc _]]].
    rewrite Hrun in Hrun'. inversion Hrun'; subst. split; [left; reflexivity |].
    exists evs. split; [reflexivity |]. split; [| discriminate].
    rewrite (quiet_no_failed_cp evs Hc). split; discriminate.
  - assert (Hne : scan force T (Dir es) <> []) by (rewrite Hs; discriminate).
    destruct (upload_path_outcome dev path force w es T Hl Hm Hne)
      as [j [evs [r' [fs' [Hrun' Hcase]]]]].
    rewrite Hrun in Hrun'. inversion Hrun'; subst. rewrite Hs in *. cbn [fs log].
    destruct Hcase as [[Hr [Hfs [Hp Hf]]] | [f [rc [h [Hr [Hfs [Hn [Hd [Hc [Hp Hf]]]]]]]]]];
      subst r'.
    + split; [left; reflexivity |]. exists evs. split; [reflexivity |].
      split; [| discriminate]. rewrite Hf. split; discriminate.
    + split; [right; reflexivity |]. exists evs. split; [reflexivity |].
      split; [rewrite Hf; split; reflexivity |]. intros _.
      subst fs'. repeat split; [exact Hm |]. exists j, f, rc. auto.
Qed.

(** X4.  The answers of the device to the directory requests do not
    matter: when it accepts the copy of every candidate, the upload
    returns normally and, if there was a candidate, the marker holds the
    time of the clock. *)
Theorem mkdir_failures_are_ignored
  (dev : device) (path : parts) (force : bool) (es : list (string * node)) (T : time)
  (w : world) :
  lookup path (fs w) = Some (Dir es) ->
  persisted_marker (fs w) path T ->
  (forall h f, In f (scan force T (Dir es)) -> exists out, dev h (cp_cmd path f) = DevOk out) ->
  exists w',
    upload_path dev path force w = (Ret tt, w')
    /\ (scan force T (Dir es) <> [] -> persisted_marker (fs w') path (clock w)).
Proof.
  intros Hl Hm Hok.
  destruct (scan force T (Dir es)) as [| f0 fl] eqn:Hs.
  - destruct (upload_path_empty dev path force w es T Hl Hm Hs) as [evs [Hrun _]].
    eexists. split; [exact Hrun | congruence].
  - assert (Hne : scan force T (Dir es) <> []) by (rewrite Hs; discriminate).
    destruct (upload_path_outcome dev path force w es T Hl Hm Hne)
      as [j [evs [r [fs' [Hrun Hcase]]]]].
    rewrite Hs in *.
    destruct Hcase as [[Hr [Hfs _]] | [f [rc [h [_ [_ [Hn [Hd _]]]]]]]].
    + subst r. eexists. split; [exact Hrun |]. intros _. cbn [fs].
      unfold persisted_marker. subst fs'.
      rewrite (lookup_write_entry path TIMESTAMP_FILE_NAME _ (fs w) es Hl). reflexivity.
    + exfalso. apply nth_error_In in Hn. destruct (Hok h f Hn) as [out Hout]. congruence.
Qed.

Lemma update_upload_time_run (path : parts) (w : world) (es : list (string * node)) :
  lookup path (fs w) = Some (Dir es) ->
  (forall x, lookup (path ++ [TIMESTAMP_FILE_NAME]) (fs w) = Some x -> is_file x = true) ->
  update_upload_time path w
  = (Ret tt,
     mkWorld (write_entry path TIMESTAMP_FILE_NAME (File (clock w) (Some (clock w))) (fs w))
       (clock w)
       (log w ++ [MarkerWrite (path ++ [TIMESTAMP_FILE_NAME]) (clock w)])).
Proof.
  intros Hl Hfile.
  unfold update_upload_time, bind at 1, time_time, bind at 1, emit at 1, bind at 1, get_fs.
  cbn [fs clock log].
  destruct (lookup (path ++ [TIMESTAMP_FILE_NAME]) (fs w)) as [[m v | es' | ] |];
    try reflexivity; specialize (Hfile _ eq_refl); discriminate.
Qed.

(** X5.  Writing the marker and reading it back: in a root directory
    whose marker is absent or a regular file, [update_upload_time]
    returns, and [get_last_upload_time] then returns the time of the clock
    at the write. *)
Theorem marker_round_trip (path : parts) (w : world) (es : list (string * node)) :
  lookup path (fs w) = Some (Dir es) ->
  (forall x, lookup (path ++ [TIMESTAMP_FILE_NAME]) (fs w) = Some x -> is_file x = true) ->
  exists w1,
    update_upload_time path w = (Ret tt, w1)
    /\ fst (get_last_upload_time path w1) = Ret (clock w)
    /\ persisted_marker (fs w1) path (clock w).
Proof.
  intros Hl Hfile. eexists. split; [apply (update_upload_time_run path w es Hl Hfile) |].
  assert (Hm : persisted_marker
                 (write_entry path TIMESTAMP_FILE_NAME (File (clock w) (Some (clock w))) (fs w))
                 path (clock w)).
  { unfold persisted_marker.
    rewrite (lookup_write_entry path TIMESTAMP_FILE_NAME _ (fs w) es Hl). reflexivity. }
  split; [| exact Hm].
  match goal with |- fst (get_last_upload_time path ?w1) = _ =>
    destruct (get_last_upload_time_run path w1) as [evs [r [Hrun [_ [_ [_ Hret]]]]]];
    rewrite Hrun; cbn [fst]; apply Hret; exact Hm
  end.
Qed.

(** X6.  Writing the marker changes nothing else: the scan of the root
    gives the same candidates for every force flag and marker value, every
    path that neither leads to the marker file nor continues it names what
    it named, and the clock is as it was. *)
Theorem marker_write_frame (path : parts) (w : world) (es : list (string * node)) :
  lookup path (fs w) = Some (Dir es) ->
  (forall x, lookup (path ++ [TIMESTAMP_FILE_NAME]) (fs w) = Some x -> is_file x = true) ->
  exists w1 es1,
    update_upload_time path w = (Ret tt, w1)
    /\ lookup path (fs w1) = Some (Dir es1)
    /\ (forall force T, scan force T (Dir es1) = scan force T (Dir es))
    /\ (forall q,
           ~ prefix_of q (path ++ [TIMESTAMP_FILE_NAME]) ->
           ~ prefix_of (path ++ [TIMESTAMP_FILE_NAME]) q ->
           lookup q (fs w1) = lookup q (fs w))
    /\ clock w1 = clock w.
Proof.
  intros Hl Hfile. eexists. exists (set_entry TIMESTAMP_FILE_NAME (File (clock w) (Some (clock w))) es).
  split; [apply (update_upload_time_run path w es Hl Hfile) |]. cbn [fs clock].
  split; [apply lookup_write_entry_root; exact Hl |]. split; [| split; [| reflexivity]].
  - intros force T. apply scan_set_entry.
    + left. reflexivity.
    + intros x Hx. apply Hfile. rewrite lookup_app, Hl. cbn [lookup]. rewrite Hx. reflexivity.
  - intros q Hq Hp. apply lookup_write_entry_other; assumption.
Qed.

(** X7.  Nothing is uploaded twice: after an upload that returned, when
    no regular file of the root is dated after the clock of that upload,
    a second upload over the tree it left runs no command and leaves the
    tree as it is, whatever the device. *)
Theorem second_upload_has_nothing_to_do
  (dev dev2 : device) (path : parts) (es : list (string * node)) (T : time)
  (w w1 w2 : world) :
  lookup path (fs w) = Some (Dir es) ->
  persisted_marker (fs w) path T ->
  upload_path dev path false w = (Ret tt, w1) ->
  (forall rel m c, under (Dir es) rel (File m c) -> (m <= clock w)%Z) ->
  fs w2 = fs w1 ->
  exists evs,
    upload_path dev2 path false w2 = (Ret tt, logged w2 evs)
    /\ commands evs = []
    /\ fs (logged w2 evs) = fs w1.
Proof.
  intros Hl Hm Hrun Hold Hfs.
  destruct (scan false T (Dir es)) as [| f0 fl] eqn:Hs.
  - destruct (upload_path_empty dev path false w es T Hl Hm Hs) as [evs [Hrun' _]].
    rewrite Hrun in Hrun'. inversion Hrun'; subst w1. cbn [fs logged] in Hfs.
    destruct (upload_path_empty dev2 path false w2 es T) as [evs2 [Hrun2 [Hc2 _]]];
      try (rewrite Hfs; assumption); [exact Hs |].
    exists evs2. split; [exact Hrun2 |]. split; [exact Hc2 | exact Hfs].
  - assert (Hne : scan false T (Dir es) <> []) by (rewrite Hs; discriminate).
    destruct (upload_path_nonempty dev path false w es T Hl Hm Hne)
      as [k [evs [r' [fs' [Hrun' [_ [_ Hr]]]]]]].
    rewrite Hrun in Hrun'. inversion Hrun'; subst w1. cbn [fs] in Hfs.
    destruct Hr as [[_ [_ Hw]] | [Hr _]]; [| congruence].
    set (v := File (clock w) (Some (clock w))) in *.
    assert (Hl2 : lookup path (fs w2) = Some (Dir (set_entry TIMESTAMP_FILE_NAME v es))).
    { rewrite Hfs, Hw. apply lookup_write_entry_root. exact Hl. }
    assert (Hm2 : persisted_marker (fs w2) path (clock w)).
    { unfold persisted_marker. rewrite Hfs, Hw.
      rewrite (lookup_write_entry path TIMESTAMP_FILE_NAME v (fs w) es Hl). reflexivity. }
    assert (Hs2 : scan false (clock w) (Dir (set_entry TIMESTAMP_FILE_NAME v es)) = []).
    { unfold v. rewrite scan_set_entry.
      - destruct (scan false (clock w) (Dir es)) as [| [rel x] l] eqn:Hsc; [reflexivity |].
        assert (Hin : In (rel, x) (scan false (clock w) (Dir es))) by (rewrite Hsc; left; reflexivity).
        apply scan_spec in Hin. destruct Hin as [Hu [m [c [Hx [_ [Hf | Ht]]]]]]; [discriminate |].
        subst x. specialize (Hold _ _ _ Hu). lia.
      - left. reflexivity.
      - intros x Hx. unfold persisted_marker in Hm. rewrite lookup_app, Hl in Hm.
        cbn [lookup] in Hm. rewrite Hx in Hm. destruct x as [m [c |] | |]; auto; contradiction. }
    destruct (upload_path_empty dev2 path false w2 _ (clock w) Hl2 Hm2 Hs2)
      as [evs2 [Hrun2 [Hc2 _]]].
    exists evs2. split; [exact Hrun2 |]. split; [exact Hc2 | exact Hfs].
Qed.

Lemma upload_path_tree (dev : device) (path : parts) (force : bool) (w : world) :
  clock (snd (upload_path dev path force w)) = clock w
  /\ (exists evs, log (snd (upload_path dev path force w)) = log w ++ evs)
  /\ (fs (snd (upload_path dev path force w)) = fs w
      \/ fs (snd (upload_path dev path force w))
         = write_entry path TIMESTAMP_FILE_NAME (File (clock w) (Some (clock w))) (fs w)).
Proof.
  destruct (lookup path (fs w)) as [[m c | es | ] |] eqn:Hl;
    try (rewrite upload_path_not_dir by (rewrite Hl; reflexivity);
         cbn [snd clock log fs logged]; eauto).
  assert (Hdec : (exists T, persisted_marker (fs w) path T)
                 \/ (forall T, ~ persisted_marker (fs w) path T)).
  { unfold persisted_marker.
    destruct (lookup (path ++ [TIMESTAMP_FILE_NAME]) (fs w)) as [[m [v |] | es' | ] |];
      try (right; intros T H; exact H); left; eexists; reflexivity. }
  destruct Hdec as [[T Hm] | Hno].
  - destruct (scan force T (Dir es)) as [| f0 fl] eqn:Hs.
    + destruct (upload_path_empty dev path force w es T Hl Hm Hs) as [evs [Hrun _]].
      rewrite Hrun. cbn [snd clock log fs logged]. eauto.
    + assert (Hne : scan force T (Dir es) <> []) by (rewrite Hs; discriminate).
      destruct (upload_path_nonempty dev path force w es T Hl Hm Hne)
        as [k [evs [r [fs' [Hrun [_ [_ Hr]]]]]]].
      rewrite Hrun. cbn [snd clock log fs].
      split; [reflexivity |]. split; [eauto |].
      destruct Hr as [[_ [_ Hw]] | [_ Hw]]; auto.
  - destruct (upload_path_marker_raises dev path force w es Hl Hno) as [evs [r [Hrun _]]].
    rewrite Hrun. cbn [snd clock log fs logged]. eauto.
Qed.

(** X8.  Whatever the run of the upload, locally it touches nothing but
    the marker file: every path that neither leads to the marker file nor
    continues it names after the run what it named before, the clock is
    as it was and the log has only grown. *)
Theorem upload_path_touches_only_marker
  (dev : device) (path : parts) (force : bool) (w : world) (q : parts) :
  ~ prefix_of q (path ++ [TIMESTAMP_FILE_NAME]) ->
  ~ prefix_of (path ++ [TIMESTAMP_FILE_NAME]) q ->
  lookup q (fs (snd (upload_path dev path force w))) = lookup q (fs w)
  /\ clock (snd (upload_path dev path force w)) = clock w
  /\ exists evs, log (snd (upload_path dev path force w)) = log w ++ evs.
Proof.
  intros Hq Hp. destruct (upload_path_tree dev path force w) as [Hc [Hlog [Hfs | Hfs]]];
    (split; [| split; [exact Hc | exact Hlog]]); rewrite Hfs; [reflexivity |].
  apply lookup_write_entry_other; assumption.
Qed.

(** X9.  A candidate at the top of the root makes the upload request the
    creation of the folder [:/.]: its relative parent folder is written
    ".", which the test [if relative_folder:] lets through. *)
Theorem top_level_candidate_requests_dot
  (dev : device) (path : parts) (force : bool) (es : list (string * node)) (T : time)
  (w w' : world) (r : result unit) (nm : string) (x : node) :
  lookup path (fs w) = Some (Dir es) ->
  persisted_marker (fs w) path T ->
  In ([nm], x) (scan force T (Dir es)) ->
  upload_path dev path force w = (r, w') ->
  mkdir_cmd "." = ["mpremote"; "fs"; "mkdir"; ":/."]
  /\ In (mkdir_cmd ".") (commands (log w')).
Proof.
  intros Hl Hm Hin Hrun. split; [reflexivity |].
  assert (Hne : scan force T (Dir es) <> []) by (intro H; rewrite H in Hin; exact Hin).
  destruct (upload_path_nonempty dev path force w es T Hl Hm Hne)
    as [k [evs [r' [fs' [Hrun' [Hc _]]]]]].
  rewrite Hrun in Hrun'. inversion Hrun'; subst. cbn [log].
  rewrite commands_app, Hc. apply in_or_app. right. apply in_or_app. left.
  apply in_map. apply (Permutation_in (l := folders_to_create (scan force T (Dir es))));
    [symmetry; apply sorted_perm |].
  apply folders_to_create_In. split; [discriminate |].
  exists ([nm], x). split; [exact Hin | reflexivity].
Qed.

(** ** Further properties: the suffix test *)

Lemma substring_all (s : string) : substring 0 (String.length s) s = s.
Proof. induction s as [| c s IH]; simpl; [reflexivity | rewrite IH; reflexivity]. Qed.

Lemma string_length_append (a b : string) :
  String.length (a ++ b) = String.length a + String.length b.
Proof. induction a as [| c a IH]; simpl; [reflexivity | rewrite IH; reflexivity]. Qed.

Lemma substring_skip (a b : string) :
  substring (String.length a) (String.length b) (a ++ b) = b.
Proof. induction a as [| c a IH]; simpl; [apply substring_all | exact IH]. Qed.

(** From the last dot on, a name is a dot followed by characters that are
    no dot. *)
Lemma rfind_tail (s : string) :
  forall i, rfind "." s = Some i ->
            exists t, substring i (String.length s - i) s = String "." t /\ rfind "." t = None.
Proof.
  induction s as [| c s IH]; intros i Hi; simpl in Hi; [discriminate |].
  destruct (rfind "." s) as [i' |] eqn:E.
  - inversion Hi; subst. simpl. apply IH. reflexivity.
  - destruct (Ascii.eqb_spec c ".") as [-> | Hc]; [| discriminate].
    inversion Hi; subst. exists s. simpl. rewrite substring_all. auto.
Qed.

Lemma rfind_append (stem ext : string) :
  rfind "." ext = None -> rfind "." (stem ++ String "." ext) = Some (String.length stem).
Proof.
  intro He. induction stem as [| c stem IH]; simpl.
  - rewrite He. reflexivity.
  - rewrite IH. reflexivity.
Qed.

(** The suffix of a name is what follows its last dot, given something
    stands before the dot and after it. *)
Lemma suffix_of_extension (stem ext : string) :
  stem <> EmptyString -> ext <> EmptyString -> rfind "." ext = None ->
  suffix_of_name (stem ++ String "." ext) = String "." ext.
Proof.
  intros Hs He Hr. unfold suffix_of_name. rewrite (rfind_append stem ext Hr).
  rewrite string_length_append. cbn [String.length].
  assert (H0 : (0 <? String.length stem) = true).
  { apply Nat.ltb_lt. destruct stem; [congruence | simpl; lia]. }
  assert (H1 : (String.length stem <? String.length stem + S (String.length ext) - 1) = true).
  { apply Nat.ltb_lt. destruct ext; [congruence | simpl; lia]. }
  rewrite H0, H1. cbn [andb].
  replace (String.length stem + S (String.length ext) - String.length stem)
    with (String.length (String "." ext)) by (simpl; lia).
  apply substring_skip.
Qed.

Lemma suffix_shape (nm : string) :
  suffix_of_name nm = EmptyString
  \/ exists t, suffix_of_name nm = String "." t /\ rfind "." t = None.
Proof.
  unfold suffix_of_name. destruct (rfind "." nm) as [i |] eqn:E; [| left; reflexivity].
  destruct ((0 <? i) && (i <? String.length nm - 1)); [| left; reflexivity].
  right. apply rfind_tail. exact E.
Qed.

(** X10.  The denylist entry [.tar.gz] excludes nothing: a suffix never
    holds two dots, so no path has that suffix, and a regular file named
    with the ending [.tar.gz] has the suffix [.gz] and is a candidate of
    every forced upload. *)
Theorem tar_gz_entry_matches_nothing :
  In ".tar.gz" IGNORED_SUFFIXES
  /\ (forall rel, suffix rel <> ".tar.gz")
  /\ (forall stem, suffix_of_name (stem ++ ".tar.gz") = ".gz")
  /\ (forall T pre stem m c,
         wanted true T (pre ++ [(stem ++ ".tar.gz")%string], File m c) = true).
Proof.
  assert (Hgz : forall stem, suffix_of_name (stem ++ ".tar.gz") = ".gz").
  { intro stem.
    replace (stem ++ ".tar.gz")%string with ((stem ++ ".tar") ++ String "." "gz")%string.
    - apply suffix_of_extension; [destruct stem; discriminate | discriminate | reflexivity].
    - induction stem as [| c stem IH]; [reflexivity |].
      change (String c ((stem ++ ".tar") ++ String "." "gz") = String c (stem ++ ".tar.gz")).
      rewrite IH. reflexivity. }
  split; [| split; [| split; [exact Hgz |]]].
  - unfold IGNORED_SUFFIXES. repeat (try (left; reflexivity); right).
  - intros rel Heq. unfold suffix in Heq.
    destruct (suffix_shape (name rel)) as [He | [t [Ht Hr]]]; rewrite Heq in *.
    + discriminate.
    + inversion Ht; subst t. discriminate.
  - intros T pre stem m c. unfold wanted. cbn [fst snd]. unfold suffix, name.
    rewrite last_last, Hgz. reflexivity.
Qed.

(** X11.  A name whose only dot is its first character has no suffix, so
    the suffix test excludes no such file: dot files, [.gitignore] and
    [.DS_Store] among them, are candidates of every forced upload although
    the denylist names them. *)
Theorem dot_files_are_not_excluded (s : string) :
  rfind "." s = None ->
  suffix_of_name (String "." s) = EmptyString
  /\ (forall T pre m c, wanted true T (pre ++ [String "." s], File m c) = true)
  /\ (forall T pre m c, (T < m)%Z -> wanted false T (pre ++ [String "." s], File m c) = true).
Proof.
  intro Hr.
  assert (Hs : suffix_of_name (String "." s) = EmptyString).
  { unfold suffix_of_name. cbn [rfind]. rewrite Hr. reflexivity. }
  split; [exact Hs |]. split.
  - intros T pre m c. unfold wanted. cbn [fst snd]. unfold suffix, name.
    rewrite last_last, Hs. reflexivity.
  - intros T pre m c Ht. unfold wanted. cbn [fst snd]. unfold suffix, name.
    rewrite last_last, Hs. apply Z.ltb_lt in Ht. rewrite Ht. reflexivity.
Qed.

(** ** Further properties: the order of the directory requests *)

Lemma str_le_trans (a : string) :
  forall b c, str_le a b -> str_le b c -> str_le a c.
Proof.
  unfold str_le, String.leb.
  induction a as [| x a IH]; intros b c Hab Hbc.
  - destruct c; reflexivity.
  - destruct b as [| y b]; [discriminate |]. destruct c as [| z c]; [discriminate |].
    cbn [String.compare] in *. unfold Ascii.compare in *.
    destruct (N.compare_spec (N_of_ascii x) (N_of_ascii y)) as [Hxy | Hxy | Hxy];
      destruct (N.compare_spec (N_of_ascii y) (N_of_ascii z)) as [Hyz | Hyz | Hyz];
      destruct (N.compare_spec (N_of_ascii x) (N_of_ascii z)) as [Hxz | Hxz | Hxz];
      try discriminate; try reflexivity; try lia.
    exact (IH b c Hab Hbc).
Qed.

Lemma str_le_prefix (p s : string) : str_le p (p ++ s).
Proof.
  unfold str_le, String.leb. induction p as [| x p IH]; simpl.
  - destruct s; reflexivity.
  - unfold Ascii.compare. rewrite N.compare_refl. exact IH.
Qed.

Lemma insert_sorted_In (x y : string) (l : list string) :
  In y (insert_sorted x l) -> y = x \/ In y l.
Proof.
  intro H. apply (Permutation_in _ (insert_sorted_perm x l)) in H.
  destruct H as [H | H]; auto.
Qed.

Lemma insert_sorted_sorted (x : string) (l : list string) :
  StronglySorted str_le l -> StronglySorted str_le (insert_sorted x l).
Proof.
  induction 1 as [| y l Hl IH Hy]; simpl.
  - constructor; constructor.
  - destruct (String.leb x y) eqn:E.
    + constructor; [constructor; assumption |].
      constructor; [exact E |].
      rewrite Forall_forall in *. intros z Hz. apply (str_le_trans x y z E). auto.
    + constructor; [exact IH |].
      rewrite Forall_forall in *. intros z Hz.
      destruct (insert_sorted_In x z l Hz) as [-> | Hz']; [| auto].
      destruct (String.leb_total x y) as [H | H]; [congruence | exact H].
Qed.

Lemma sorted_sorted (l : list string) : StronglySorted str_le (sorted l).
Proof.
  induction l as [| x l IH]; simpl; [constructor | apply insert_sorted_sorted; exact IH].
Qed.

Lemma StronglySorted_nth {A} (R : A -> A -> Prop) (l : list A) :
  StronglySorted R l ->
  forall i j a b, i < j -> nth_error l i = Some a -> nth_error l j = Some b -> R a b.
Proof.
  induction 1 as [| x l Hl IH Hx]; intros i j a b Hij Hi Hj.
  - destruct i; discriminate.
  - destruct j as [| j]; [lia |]. simpl in Hj. destruct i as [| i]; simpl in Hi.
    + inversion Hi; subst. rewrite Forall_forall in Hx. apply Hx.
      eapply nth_error_In. exact Hj.
    + apply (IH i j); [lia | assumption | assumption].
Qed.

(** X12.  The directory requests of an upload are issued in the order of
    the folder names, so the request for a folder precedes the request for
    any folder below it. *)
Theorem folder_requests_are_sorted
  (dev : device) (path : parts) (force : bool) (es : list (string * node)) (T : time)
  (w w' : world) (r : result unit) :
  lookup path (fs w) = Some (Dir es) ->
  persisted_marker (fs w) path T ->
  scan force T (Dir es) <> [] ->
  upload_path dev path force w = (r, w') ->
  exists folders k,
    commands (log w')
    = commands (log w) ++ map mkdir_cmd folders
      ++ map (cp_cmd path) (firstn k (scan force T (Dir es)))
    /\ StronglySorted str_le folders
    /\ (forall d sub i j,
           nth_error folders i = Some d ->
           nth_error folders j = Some (d ++ "/" ++ sub)%string ->
           i < j).
Proof.
  intros Hl Hm Hne Hrun.
  destruct (upload_path_nonempty dev path force w es T Hl Hm Hne)
    as [k [evs [r' [fs' [Hrun' [Hc _]]]]]].
  rewrite Hrun in Hrun'. inversion Hrun'; subst. cbn [log].
  exists (sorted (folders_to_create (scan force T (Dir es)))), k.
  split; [rewrite commands_app, Hc; reflexivity |].
  split; [apply sorted_sorted |].
  intros d sub i j Hi Hj.
  assert (Hneq : d <> (d ++ "/" ++ sub)%string).
  { intro Heq. apply (f_equal String.length) in Heq.
    rewrite string_length_append in Heq. simpl in Heq. lia. }
  destruct (Nat.lt_trichotomy i j) as [Hlt | [Heq | Hgt]]; [exact Hlt | |].
  - subst j. rewrite Hi in Hj. inversion Hj. contradiction.
  - exfalso. apply Hneq. apply String.leb_antisym.
    + apply str_le_prefix.
    + exact (StronglySorted_nth str_le _ (sorted_sorted _) j i _ _ Hgt Hj Hi).
Qed.

(** ** Further properties of [list_all_files] *)

Lemma listed_refl (w : world) : listed w w.
Proof.
  unfold listed. repeat split. exists []. rewrite app_nil_r. split; reflexivity.
Qed.

Lemma listed_trans (a b c : world) : listed a b -> listed b c -> listed a c.
Proof.
  intros [Hf1 [Hc1 [e1 [Hl1 Hs1]]]] [Hf2 [Hc2 [e2 [Hl2 Hs2]]]].
  unfold listed. split; [congruence |]. split; [congruence |].
  exists (e1 ++ e2). split.
  - rewrite Hl2, Hl1, app_assoc. reflexivity.
  - rewrite commands_app, forallb_app, Hs1, Hs2. reflexivity.
Qed.

Lemma listed_logged (w : world) (evs : list event) :
  forallb is_ls (commands evs) = true -> listed w (logged w evs).
Proof.
  intro H. unfold listed, logged. cbn [fs clock log]. repeat split. exists evs. auto.
Qed.

Lemma for_each_fuel_listed {A} (body : A -> world -> option (result unit * world)) (l : list A) :
  (forall x w r w', body x w = Some (r, w') -> r = Ret tt /\ listed w w') ->
  forall w r w', for_each_fuel l body w = Some (r, w') -> r = Ret tt /\ listed w w'.
Proof.
  intro Hbody. induction l as [| x l IH]; intros w r w' Hrun; simpl in Hrun.
  - inversion Hrun; subst. split; [reflexivity | apply listed_refl].
  - destruct (body x w) as [[r1 w1] |] eqn:E; [| discriminate].
    destruct (Hbody _ _ _ _ E) as [Hr H1]. subst r1.
    destruct (IH _ _ _ Hrun) as [Hr H2]. split; [exact Hr |].
    exact (listed_trans _ _ _ H1 H2).
Qed.

Lemma list_all_files_listed (dev : device) (fuel : nat) :
  forall base_path w r w',
    list_all_files dev fuel base_path w = Some (r, w') -> r = Ret tt /\ listed w w'.
Proof.
  induction fuel as [| fuel IH]; intros base_path w r w' Hrun; [discriminate |].
  rewrite list_all_files_eq in Hrun.
  destruct (dev (commands (log w)) (ls_cmd base_path)) as [out | rc].
  - cbv zeta in Hrun.
    destruct (List.length (splitlines (strip (strip out))) <? 2).
    + inversion Hrun; subst. split; [reflexivity |]. apply listed_logged. reflexivity.
    + apply (for_each_fuel_listed _ _ (fun x => IH (sub_path base_path x))) in Hrun.
      destruct Hrun as [Hr Hl]. split; [exact Hr |].
      refine (listed_trans _ _ _ (listed_logged w _ _) Hl).
      unfold commands. cbn [flat_map app]. 
      assert (Hq : forall (l : list string) (f : string -> event),
                 (forall x, exists t, f x = Print t) ->
                 flat_map (fun e => match e with Run cmd _ => [cmd] | _ => [] end) (map f l) = []).
      { intros l f Hf. induction l as [| x l IHl]; [reflexivity |].
        cbn [map flat_map]. destruct (Hf x) as [t Ht]. rewrite Ht, IHl. reflexivity. }
      rewrite Hq by (intro x; eexists; reflexivity). reflexivity.
  - inversion Hrun; subst. split; [reflexivity |]. apply listed_logged. reflexivity.
Qed.

(** X13.  A listing ends in one of two ways.  Either its calls nest
    deeper than the depth allowed, which is CPython's [RecursionError],
    or it returns normally, even if every request failed: no [SystemExit]
    of a failed request leaves [list_all_files].  When it returns, the
    commands it ran are all listing requests, and the local tree and the
    clock are as they were. *)
Theorem listing_ends_two_ways
  (dev : device) (fuel : nat) (base_path : string) (w : world) :
  list_all_files dev fuel base_path w = None
  \/ exists w',
       list_all_files dev fuel base_path w = Some (Ret tt, w')
       /\ fs w' = fs w
       /\ clock w' = clock w
       /\ exists evs, log w' = log w ++ evs /\ forallb is_ls (commands evs) = true.
Proof.
  destruct (list_all_files dev fuel base_path w) as [[r w'] |] eqn:Hrun; [| left; reflexivity].
  destruct (list_all_files_listed dev fuel _ _ _ _ Hrun) as [Hr [Hf [Hc He]]].
  subst r. right. exists w'. auto.
Qed.

Lemma for_each_fuel_stuck {A} (body : A -> world -> option (result unit * world))
  (l : list A) (s : A) :
  In s l ->
  (forall w, body s w = None) ->
  (forall x w r w', body x w = Some (r, w') -> r = Ret tt) ->
  forall w, for_each_fuel l body w = None.
Proof.
  intros Hin Hs Hret. induction l as [| x l IH]; intro w; [contradiction |].
  simpl. destruct (body x w) as [[r1 w1] |] eqn:E; [| reflexivity].
  rewrite (Hret _ _ _ _ E). destruct Hin as [-> | Hin].
  - rewrite Hs in E. discriminate.
  - apply IH. exact Hin.
Qed.

Lemma main_list_files_eq (dev : device) (fuel : nat) (a : args) (w : world) :
  arg_command a = "list_files" ->
  main dev fuel a w =
  match list_all_files dev fuel ":/" (snd (print banner w)) with
  | Some (Ret _, w') => Some (print banner w')
  | other => other
  end.
Proof.
  intro Hc. unfold main, dispatch. rewrite Hc.
  change (String.eqb "list_files" "delete_all") with false.
  change (String.eqb "list_files" "upload_path") with false.
  change (String.eqb "list_files" "soft_reset") with false.
  change (String.eqb "list_files" "terminal") with false.
  change (String.eqb "list_files" "list_files") with true.
  reflexivity.
Qed.

(** X14.  When every answer of the device to the listing of a path
    reports a subdirectory whose path is that same path (an entry that is
    the separator alone, under the root), the calls for that path nest
    deeper than any depth allowed: the listing ends with
    [RecursionError] however large the limit, and when the path is the
    root of the device the [list_files] command ends the process with
    status 1. *)
Theorem self_reference_exceeds_every_depth (dev : device) (base_path : string) :
  (forall h, exists s,
      In s (subdirs_of_answer (dev h (ls_cmd base_path))) /\ sub_path base_path s = base_path) ->
  forall depth w,
    list_all_files dev depth base_path w = None
    /\ (base_path = ":/" ->
        forall a, arg_command a = "list_files" ->
                  main dev depth a w = None
                  /\ process_status (main dev depth a w) = 1%Z).
Proof.
  intros Hself.
  assert (Hnone : forall depth w, list_all_files dev depth base_path w = None).
  { intro depth. induction depth as [| depth IH]; intro w; [reflexivity |].
    rewrite list_all_files_eq.
    destruct (Hself (commands (log w))) as [s [Hin Hs]].
    destruct (dev (commands (log w)) (ls_cmd base_path)) as [out | rc]; [| contradiction].
    cbn [subdirs_of_answer] in Hin. cbv zeta in *.
    destruct (List.length (splitlines (strip (strip out))) <? 2); [contradiction |].
    apply (for_each_fuel_stuck _ _ s Hin).
    - intro w0. rewrite Hs. apply IH.
    - intros x w0 r w1 Hrun. exact (proj1 (list_all_files_listed dev depth _ _ _ _ Hrun)). }
  intros depth w. split; [apply Hnone |].
  intros Hroot a Ha. subst base_path.
  rewrite (main_list_files_eq dev depth a w Ha), Hnone. split; reflexivity.
Qed.

Lemma filter_split_length {A} (p : A -> bool) (l : list A) :
  List.length (filter (fun x => negb (p x)) l) + List.length (filter p l) = List.length l.
Proof.
  induction l as [| x l IH]; simpl; [reflexivity |].
  destruct (p x); simpl; lia.
Qed.

Lemma rstrip_slash_no_slash (s : string) : endswith_slash (rstrip_slash s) = false.
Proof.
  unfold rstrip_slash. induction s as [| c s IH]; [reflexivity |].
  cbn [rstrip_by]. destruct (rstrip_by (Ascii.eqb "/") s) as [| a r] eqn:E.
  - destruct (Ascii.eqb "/" c) eqn:Ec; [reflexivity |].
    cbn [endswith_slash]. rewrite Ascii.eqb_sym. exact Ec.
  - exact IH.
Qed.

Lemma line_names_length (line : string) : List.length (line_names line) <= 1.
Proof.
  unfold line_names. destruct (split (strip line)); simpl; lia.
Qed.

(** X15.  The entry loop of the listing loses and invents nothing: every
    listing line with a token gives one name, which is either a file or a
    subdirectory; no file name ends in the separator, and no subdirectory
    name does once stripped, so the path built for a subdirectory with a
    name never ends in the separator. *)
Theorem classify_partitions_entries (entries : list string) :
  List.length (fst (classify entries)) + List.length (snd (classify entries))
  = List.length (flat_map line_names entries)
  /\ List.length (flat_map line_names entries) <= List.length entries
  /\ Forall (fun f => endswith_slash f = false) (fst (classify entries))
  /\ Forall (fun d => endswith_slash d = false) (snd (classify entries))
  /\ (forall base_path d,
         In d (snd (classify entries)) -> d <> EmptyString ->
         endswith_slash (sub_path base_path d) = false).
Proof.
  unfold classify. rewrite classify_loop. cbn [fst snd app].
  split; [| split; [| split; [| split]]].
  - rewrite length_map. apply filter_split_length.
  - induction entries as [| e entries IH]; simpl; [lia |].
    rewrite length_app. pose proof (line_names_length e). lia.
  - apply Forall_forall. intros f Hf. apply filter_In in Hf.
    destruct Hf as [_ Hf]. apply negb_true_iff in Hf. exact Hf.
  - apply Forall_forall. intros d Hd. apply in_map_iff in Hd.
    destruct Hd as [nm [<- _]]. apply rstrip_slash_no_slash.
  - intros base_path d Hd Hne. apply in_map_iff in Hd. destruct Hd as [nm [<- _]].
    unfold sub_path.
    assert (Hend : forall a b, b <> EmptyString ->
                     endswith_slash (a ++ b) = endswith_slash b).
    { induction a as [| c a IHa]; intros b Hb; [reflexivity |].
      change (endswith_slash (String c (a ++ b)) = endswith_slash b).
      cbn [endswith_slash]. destruct (a ++ b)%string eqn:E.
      - destruct a; cbv [String.append] in E; [congruence | discriminate].
      - rewrite <- E. apply IHa. exact Hb. }
    rewrite Hend by (simpl; discriminate).
    change ("/" ++ rstrip_slash nm)%string with (String "/" (rstrip_slash nm)).
    cbn [endswith_slash]. destruct (rstrip_slash nm) eqn:E; [congruence |].
    rewrite <- E. apply rstrip_slash_no_slash.
Qed.

(** ** Further properties: [main] and the single-request commands *)

Lemma commands_prints (l : list event) (evs : list event) :
  commands evs = [] -> commands (l ++ evs) = commands l.
Proof. intro H. rewrite commands_app, H, app_nil_r. reflexivity. Qed.

(** X16.  [delete_all], [soft_reset] and [terminal] each run one command
    line.  When the device accepts it, [main] returns after printing the
    closing banner; when the device refuses it, the process ends with
    [SystemExit(1)] right after the diagnostic of [run_mpremote], without
    the completion message and the closing banner.  The handler of
    [delete_all_files] for a failed removal never runs. *)
Theorem single_request_commands
  (dev : device) (fuel : nat) (a : args) (w : world) (cmd : list string) :
  simple_command_line (arg_command a) = Some cmd ->
  exists r w' evs,
    main dev fuel a w = Some (r, w')
    /\ log w' = log w ++ evs
    /\ fs w' = fs w
    /\ commands evs = [cmd]
    /\ match dev (commands (log w)) cmd with
       | DevOk _ => r = Ret tt /\ last evs (Print EmptyString) = Print banner
       | DevFail rc =>
           r = SystemExit 1
           /\ last evs (Print EmptyString) = PrintToolError cmd rc
           /\ List.length (filter (fun e => match e with Print _ => true | _ => false end) evs) = 2
       end
    /\ (forall e, ~ In (Print ("Error deleting files on ESP32: " ++ e)) evs).
Proof.
  unfold simple_command_line, main, dispatch.
  destruct (String.eqb (arg_command a) "delete_all") eqn:E1.
  - intro H. inversion H; subst cmd. clear H.
    unfold delete_all_files, bind at 1, print at 1 2, emit at 1 2. cbn [snd fs clock log].
    unfold bind at 1, try_except, bind at 1. rewrite run_mpremote_eq. cbv zeta.
    cbn [fs clock log]. rewrite (commands_prints (log w ++ _)) by reflexivity.
    rewrite (commands_prints (log w)) by reflexivity.
    change ("mpremote" :: ["fs"; "rm"; "-r"; ESP_ROOT]) with ["mpremote"; "fs"; "rm"; "-r"; ":/"].
    destruct (dev (commands (log w)) ["mpremote"; "fs"; "rm"; "-r"; ":/"]) as [out | rc].
    + do 3 eexists. split; [reflexivity |]. cbn [log fs logged].
      split; [rewrite <- !app_assoc; reflexivity |].
      split; [reflexivity |]. split; [reflexivity |]. split; [split; reflexivity |].
      intros e He. cbn [app In] in He.
      repeat (destruct He as [He | He]; [discriminate |]). exact He.
    + do 3 eexists. split; [reflexivity |]. cbn [log fs logged].
      split; [rewrite <- !app_assoc; reflexivity |].
      split; [reflexivity |]. split; [reflexivity |].
      split; [repeat split |].
      intros e He. cbn [app In] in He.
      repeat (destruct He as [He | He]; [discriminate |]). exact He.
  - destruct (String.eqb (arg_command a) "upload_path") eqn:E2.
    { apply String.eqb_eq in E2. rewrite E2. cbn. discriminate. }
    destruct (String.eqb (arg_command a) "soft_reset") eqn:E3.
    + intro H. inversion H; subst cmd. clear H.
      unfold soft_reset, bind at 1, print at 1 2, emit at 1 2. cbn [snd fs clock log].
      unfold bind at 1. rewrite run_mpremote_eq. cbv zeta.
      cbn [fs clock log]. rewrite (commands_prints (log w ++ _)) by reflexivity.
      rewrite (commands_prints (log w)) by reflexivity.
      destruct (dev (commands (log w)) ["mpremote"; "reset"]) as [out | rc].
      * do 3 eexists. split; [reflexivity |]. cbn [log fs logged].
        split; [rewrite <- !app_assoc; reflexivity |].
        split; [reflexivity |]. split; [reflexivity |]. split; [split; reflexivity |].
        intros e He. cbn [app In] in He.
        repeat (destruct He as [He | He]; [discriminate |]). exact He.
      * do 3 eexists. split; [reflexivity |]. cbn [log fs logged].
        split; [rewrite <- !app_assoc; reflexivity |].
        split; [reflexivity |]. split; [reflexivity |].
        split; [repeat split |].
        intros e He. cbn [app In] in He.
        repeat (destruct He as [He | He]; [discriminate |]). exact He.
    + destruct (String.eqb (arg_command a) "terminal") eqn:E4; [| discriminate].
      intro H. inversion H; subst cmd. clear H.
      unfold terminal, bind at 1, print at 1 2, emit at 1 2. cbn [snd fs clock log].
      unfold bind at 1. rewrite run_mpremote_eq. cbv zeta.
      cbn [fs clock log]. rewrite (commands_prints (log w ++ _)) by reflexivity.
      rewrite (commands_prints (log w)) by reflexivity.
      destruct (dev (commands (log w)) ["mpremote"; "repl"]) as [out | rc].
      * do 3 eexists. split; [reflexivity |]. cbn [log fs logged].
        split; [rewrite <- !app_assoc; reflexivity |].
        split; [reflexivity |]. split; [reflexivity |]. split; [split; reflexivity |].
        intros e He. cbn [app In] in He.
        repeat (destruct He as [He | He]; [discriminate |]). exact He.
      * do 3 eexists. split; [reflexivity |]. cbn [log fs logged].
        split; [rewrite <- !app_assoc; reflexivity |].
        split; [reflexivity |]. split; [reflexivity |].
        split; [repeat split |].
        intros e He. cbn [app In] in He.
        repeat (destruct He as [He | He]; [discriminate |]). exact He.
Qed.

(** X17.  The [list_files] command ends the process with status 0 or 1,
    and with 1 only when the calls of the listing nest deeper than the
    depth allowed ([RecursionError]).  Otherwise [main] returns normally
    between the two banners, even when the device refused every request,
    having run only listing requests and left the local tree alone. *)
Theorem main_list_files_status
  (dev : device) (fuel : nat) (a : args) (w : world) :
  arg_command a = "list_files" ->
  (process_status (main dev fuel a w) = 0%Z \/ process_status (main dev fuel a w) = 1%Z)
  /\ (process_status (main dev fuel a w) = 1%Z <->
      list_all_files dev fuel ":/" (snd (print banner w)) = None)
  /\ (forall r w',
         main dev fuel a w = Some (r, w') ->
         r = Ret tt
         /\ fs w' = fs w
         /\ exists evs,
              log w' = log w ++ Print banner :: evs ++ [Print banner]
              /\ forallb is_ls (commands evs) = true).
Proof.
  intro Hc. rewrite (main_list_files_eq dev fuel a w Hc).
  destruct (list_all_files dev fuel ":/" (snd (print banner w))) as [[r1 w1] |] eqn:E.
  - destruct (list_all_files_listed dev fuel _ _ _ _ E) as [Hr [Hf [Hcl [evs [Hl Hs]]]]].
    subst r1. unfold print, emit in Hl, Hf. cbn [snd fs clock log] in Hl, Hf.
    unfold print, emit. cbn [process_status exit_status].
    split; [left; reflexivity |]. split; [split; discriminate |].
    intros r w' Hrun. inversion Hrun; subst. cbn [fs log].
    repeat split; [exact Hf |].
    exists evs. split; [| exact Hs]. rewrite Hl, <- !app_assoc. reflexivity.
  - cbn [process_status]. split; [right; reflexivity |].
    split; [split; reflexivity | discriminate].
Qed.

(** ** The further properties at concrete inputs *)

Lemma forced_upload_takes_every_file_witness :
  cp_requests (log (snd (upload_path dev_ok ["proj"] true proj_world)))
  = [cp_cmd ["proj"] (["a.py"], File 10%Z None);
     cp_cmd ["proj"] (["sub"; "b.py"], File 30%Z None)].
Proof.
  destruct (forced_upload_takes_every_file dev_ok ["proj"] proj_entries 5%Z proj_world
              (snd (upload_path dev_ok ["proj"] true proj_world))
              eq_refl eq_refl eq_refl) as [_ [_ H]].
  exact H.
Defined.

Lemma candidates_shrink_with_marker_witness :
  incl (scan false 20%Z (Dir proj_entries)) (scan false 5%Z (Dir proj_entries))
  /\ incl (scan false 5%Z (Dir proj_entries)) (scan true 20%Z (Dir proj_entries)).
Proof.
  apply (candidates_shrink_with_marker (Dir proj_entries) 5%Z 20%Z).
  vm_compute. discriminate.
Defined.

Lemma failed_copy_is_fatal_witness :
  fst (upload_path dev_second_copy_fails ["proj"] false proj_world) = SystemExit 1
  /\ fs (snd (upload_path dev_second_copy_fails ["proj"] false proj_world)) = fs proj_world.
Proof.
  destruct (failed_copy_is_fatal dev_second_copy_fails ["proj"] false proj_entries 5%Z proj_world
              (snd (upload_path dev_second_copy_fails ["proj"] false proj_world))
              (fst (upload_path dev_second_copy_fails ["proj"] false proj_world))
              eq_refl eq_refl eq_refl) as [_ [evs [_ [_ H]]]].
  split; [reflexivity |]. exact (proj1 (proj2 (H eq_refl))).
Defined.

Lemma mkdir_failures_are_ignored_witness :
  exists w',
    upload_path dev_no_mkdir ["proj"] false proj_world = (Ret tt, w')
    /\ (scan false 5%Z (Dir proj_entries) <> [] ->
        persisted_marker (fs w') ["proj"] (clock proj_world)).
Proof.
  apply (mkdir_failures_are_ignored dev_no_mkdir ["proj"] false proj_entries 5%Z proj_world).
  - reflexivity.
  - reflexivity.
  - intros h f _. eexists. reflexivity.
Defined.

Lemma marker_round_trip_witness :
  exists w1,
    update_upload_time ["proj"] proj_world = (Ret tt, w1)
    /\ fst (get_last_upload_time ["proj"] w1) = Ret (clock proj_world)
    /\ persisted_marker (fs w1) ["proj"] (clock proj_world).
Proof.
  apply (marker_round_trip ["proj"] proj_world proj_entries).
  - reflexivity.
  - intros x H. vm_compute in H. inversion H. reflexivity.
Defined.

Lemma marker_write_frame_witness :
  exists w1 es1,
    update_upload_time ["proj"] proj_world = (Ret tt, w1)
    /\ lookup ["proj"] (fs w1) = Some (Dir es1)
    /\ (forall force T, scan force T (Dir es1) = scan force T (Dir proj_entries))
    /\ (forall q,
           ~ prefix_of q (["proj"] ++ [TIMESTAMP_FILE_NAME]) ->
           ~ prefix_of (["proj"] ++ [TIMESTAMP_FILE_NAME]) q ->
           lookup q (fs w1) = lookup q (fs proj_world))
    /\ clock w1 = clock proj_world.
Proof.
  apply (marker_write_frame ["proj"] proj_world proj_entries).
  - reflexivity.
  - intros x H. vm_compute in H. inversion H. reflexivity.
Defined.

Lemma second_upload_has_nothing_to_do_witness :
  exists evs,
    upload_path dev_down ["proj"] false (snd (upload_path dev_ok ["proj"] false proj_world))
    = (Ret tt, logged (snd (upload_path dev_ok ["proj"] false proj_world)) evs)
    /\ commands evs = []
    /\ fs (logged (snd (upload_path dev_ok ["proj"] false proj_world)) evs)
       = fs (snd (upload_path dev_ok ["proj"] false proj_world)).
Proof.
  apply (second_upload_has_nothing_to_do dev_ok dev_down ["proj"] proj_entries 5%Z proj_world).
  - reflexivity.
  - reflexivity.
  - reflexivity.
  - intros rel m c H. apply rglob_spec in H. vm_compute in H.
    destruct H as [H | [H | [H | [H | [H | []]]]]]; inversion H; subst; vm_compute; discriminate.
  - reflexivity.
Defined.

Lemma upload_path_touches_only_marker_witness :
  lookup ["proj"; "a.py"] (fs (snd (upload_path dev_ok ["proj"] false proj_world)))
  = lookup ["proj"; "a.py"] (fs proj_world).
Proof.
  apply (upload_path_touches_only_marker dev_ok ["proj"] false proj_world ["proj"; "a.py"]).
  - intros [c H]. inversion H.
  - intros [c H]. inversion H.
Defined.

Lemma top_level_candidate_requests_dot_witness :
  In (mkdir_cmd ".") (commands (log (snd (upload_path dev_ok ["proj"] false proj_world)))).
Proof.
  apply (top_level_candidate_requests_dot dev_ok ["proj"] false proj_entries 5%Z proj_world
           (snd (upload_path dev_ok ["proj"] false proj_world))
           (fst (upload_path dev_ok ["proj"] false proj_world))
           "a.py" (File 10%Z None)).
  - reflexivity.
  - reflexivity.
  - left. reflexivity.
  - reflexivity.
Defined.

Lemma dot_files_are_not_excluded_witness :
  suffix_of_name ".gitignore" = EmptyString
  /\ (forall T pre m c, wanted true T (pre ++ [".gitignore"], File m c) = true)
  /\ (forall T pre m c, (T < m)%Z -> wanted false T (pre ++ [".gitignore"], File m c) = true).
Proof.
  apply (dot_files_are_not_excluded "gitignore"). reflexivity.
Defined.

Lemma folder_requests_are_sorted_witness :
  exists folders k,
    commands (log (snd (upload_path dev_ok ["proj"] true nested_world)))
    = commands (log nested_world) ++ map mkdir_cmd folders
      ++ map (cp_cmd ["proj"]) (firstn k (scan true 0%Z (Dir nested_entries)))
    /\ StronglySorted str_le folders
    /\ (forall d sub i j,
           nth_error folders i = Some d ->
           nth_error folders j = Some (d ++ "/" ++ sub)%string ->
           i < j).
Proof.
  apply (folder_requests_are_sorted dev_ok ["proj"] true nested_entries 0%Z nested_world
           (snd (upload_path dev_ok ["proj"] true nested_world))
           (fst (upload_path dev_ok ["proj"] true nested_world))).
  - reflexivity.
  - reflexivity.
  - vm_compute. discriminate.
  - reflexivity.
Defined.

Lemma self_reference_exceeds_every_depth_witness :
  list_all_files dev_self_reference 1000 ":/" empty_world = None
  /\ process_status (main dev_self_reference 1000 (mkArgs "list_files" None false) empty_world)
     = 1%Z.
Proof.
  assert (Hself : forall h, exists s,
             In s (subdirs_of_answer (dev_self_reference h (ls_cmd ":/")))
             /\ sub_path ":/" s = ":/").
  { intro h. exists EmptyString. split; [vm_compute; left; reflexivity | reflexivity]. }
  destruct (self_reference_exceeds_every_depth dev_self_reference ":/" Hself 1000 empty_world)
    as [Hnone Hmain].
  split; [exact Hnone |].
  exact (proj2 (Hmain eq_refl (mkArgs "list_files" None false) eq_refl)).
Defined.

Lemma classify_partitions_entries_witness :
  endswith_slash (sub_path ":/" "lib") = false.
Proof.
  destruct (classify_partitions_entries ["         139 main.py"; "           0 lib/"])
    as [_ [_ [_ [_ H]]]].
  apply (H ":/" "lib").
  - vm_compute. left. reflexivity.
  - discriminate.
Defined.

Lemma single_request_commands_witness :
  exists r w' evs,
    main dev_down 0 (mkArgs "delete_all" None false) empty_world = Some (r, w')
    /\ log w' = log empty_world ++ evs
    /\ fs w' = fs empty_world
    /\ commands evs = [["mpremote"; "fs"; "rm"; "-r"; ":/"]]
    /\ (r = SystemExit 1
        /\ last evs (Print EmptyString) = PrintToolError ["mpremote"; "fs"; "rm"; "-r"; ":/"] 1
        /\ List.length (filter (fun e => match e with Print _ => true | _ => false end) evs) = 2)
    /\ (forall e, ~ In (Print ("Error deleting files on ESP32: " ++ e)) evs).
Proof.
  apply (single_request_commands dev_down 0 (mkArgs "delete_all" None false) empty_world
           ["mpremote"; "fs"; "rm"; "-r"; ":/"]).
  reflexivity.
Defined.

Lemma main_list_files_status_witness :
  process_status (main dev_down 1 (mkArgs "list_files" None false) empty_world) = 0%Z
  \/ process_status (main dev_down 1 (mkArgs "list_files" None false) empty_world) = 1%Z.
Proof.
  exact (proj1 (main_list_files_status dev_down 1 (mkArgs "list_files" None false) empty_world
                  eq_refl)).
Defined.
